(** * Adaptive market maker: the strategy script and its spread policy

    A shallow embedding of [adaptive_market_maker.py] (class
    [AdaptiveMarketMaker]) and the properties its specification states.

    Conventions of the embedding.
    - Python [float] and [Decimal] values are exact rationals ([Q]): the
      arithmetic is the one the source writes, without rounding, NaN or
      infinities.  Python's [==], [<], [<=] on numbers are [Qeq], [Qlt],
      [Qle]; the tests the source makes are decided by [Qlt_bool] and
      [Qle_bool].
    - The host runtime (connectors, candle feed, clock, order API) is a
      record of what its accessors answer during one call; an accessor
      either answers or raises.
    - A method is a computation over the strategy object: it may read and
      write attributes, emit events (log lines, order API calls) and raise. *)

From Stdlib Require Import QArith Qabs Qminmax Lqa Lia ZArith List String Ascii Bool.
From Stdlib Require Import DecimalString.
Import ListNotations.

Local Open Scope Q_scope.

(* ------------------------------------------------------------------ *)
(** ** Python builtins on numbers *)

Definition Qlt_bool (x y : Q) : bool :=
  (Qnum x * QDen y <? Qnum y * QDen x)%Z.

(** [max(a, b)]: the first argument is kept unless the second is
    strictly greater. *)
Definition py_max (a b : Q) : Q := if Qlt_bool a b then b else a.

(** [min(a, b)]: the first argument is kept unless the second is
    strictly smaller. *)
Definition py_min (a b : Q) : Q := if Qlt_bool b a then b else a.

(** [abs(x)] *)
Definition py_abs (x : Q) : Q := Qabs x.

(* ------------------------------------------------------------------ *)
(** ** Exceptions and results *)

(** Instances of Python's [Exception]: what an [except Exception] clause
    catches. *)
Inductive exn : Type :=
| IndexError
| KeyError (key : string)
| HostError (msg : string).

Inductive result (A : Type) : Type :=
| Ok (a : A)
| Raise (e : exn).
Arguments Ok {A} a.
Arguments Raise {A} e.

(* ------------------------------------------------------------------ *)
(** ** Strings and sequences *)

(** [s.split(sep)] for a one-character separator. *)
Fixpoint split (sep : ascii) (s : string) : list string :=
  match s with
  | EmptyString => [EmptyString]
  | String c rest =>
      if Ascii.eqb c sep then EmptyString :: split sep rest
      else match split sep rest with
           | hd :: tl => String c hd :: tl
           | [] => [String c EmptyString]
           end
  end.

(** [xs[i]] for [i >= 0]. *)
Definition index {A : Type} (xs : list A) (i : nat) : result A :=
  match nth_error xs i with
  | Some x => Ok x
  | None => Raise IndexError
  end.

(** [str(n)] for a non-negative integer. *)
Definition str (n : nat) : string := NilZero.string_of_uint (Nat.to_uint n).

(** [f"NATR_{n}"] *)
Definition natr_label (n : nat) : string := "NATR_" ++ str n.

(** [d[k]] on a dict kept as an association list. *)
Fixpoint lookup {A : Type} (k : string) (d : list (string * A)) : result A :=
  match d with
  | [] => Raise (KeyError k)
  | (k', v) :: rest => if String.eqb k k' then Ok v else lookup k rest
  end.

(* ------------------------------------------------------------------ *)
(** ** Data frames (pandas), as far as the script looks at them *)

Record DataFrame : Type := {
  index_len : nat;                       (* number of rows *)
  columns : list (string * list Q)       (* column label, values *)
}.

(** [df.empty]: some axis has length 0. *)
Definition df_empty (df : DataFrame) : bool :=
  (index_len df =? 0)%nat || (List.length (columns df) =? 0)%nat.

(** [name in df.columns] *)
Definition has_column (name : string) (df : DataFrame) : bool :=
  existsb (fun c => String.eqb name (fst c)) (columns df).

(** [series.iloc[-1]] *)
Definition iloc_last (series : list Q) : result Q :=
  match rev series with
  | x :: _ => Ok x
  | [] => Raise IndexError
  end.

(* ------------------------------------------------------------------ *)
(** ** Host data types *)

Inductive PriceType := MidPrice | BestBid | BestAsk | LastTrade.
Inductive OrderType := LIMIT | MARKET.
Inductive TradeType := BUY | SELL | RANGE.
Inductive LogLevel := INFO | WARNING | ERROR.

Record OrderCandidate : Type := {
  oc_trading_pair : string;
  is_maker : bool;
  order_type : OrderType;
  order_side : TradeType;
  amount : Q;
  price : Q
}.

Record ActiveOrder : Type := {
  ao_trading_pair : string;
  client_order_id : string
}.

(** A connector, as the script uses it. *)
Record Connector : Type := {
  get_balance : string -> result Q;
  get_price_by_type : string -> PriceType -> result Q;
  get_price : string -> bool -> result Q;
  adjust_candidates : list OrderCandidate -> bool -> result (list OrderCandidate)
}.

(** What the host answers during one call of a method. *)
Record Host : Type := {
  current_timestamp : Q;
  connectors : list (string * Connector);
  candles_df : result DataFrame;                       (* self.candles.candles_df *)
  ta_rsi : nat -> DataFrame -> result DataFrame;       (* df.ta.rsi(length, append=True) *)
  ta_natr : nat -> Q -> DataFrame -> result DataFrame; (* df.ta.natr(length, scalar, append=True) *)
  get_active_orders : string -> list ActiveOrder
}.

(* ------------------------------------------------------------------ *)
(** ** The strategy object *)

Record Strategy : Type := {
  bid_spread : Q;
  ask_spread : Q;
  order_refresh_time : Q;
  order_amount : Q;
  create_timestamp : Q;
  trading_pair : string;
  exchange : string;
  price_source : PriceType;
  candles_length : nat;
  risk_aversion : Q;
  min_spread : Q
}.

(** The class attributes. *)
Definition AdaptiveMarketMaker : Strategy := {|
  bid_spread := 0.001;
  ask_spread := 0.001;
  order_refresh_time := 15;
  order_amount := 1;
  create_timestamp := 0;
  trading_pair := "SOL-USDT";
  exchange := "binance_paper_trade";
  price_source := MidPrice;
  candles_length := 30;
  risk_aversion := 0.9;
  min_spread := 0.001
|}.

Definition set_create_timestamp (t : Q) (self : Strategy) : Strategy := {|
  bid_spread := bid_spread self;
  ask_spread := ask_spread self;
  order_refresh_time := order_refresh_time self;
  order_amount := order_amount self;
  create_timestamp := t;
  trading_pair := trading_pair self;
  exchange := exchange self;
  price_source := price_source self;
  candles_length := candles_length self;
  risk_aversion := risk_aversion self;
  min_spread := min_spread self
|}.

Definition set_risk_aversion (r : Q) (self : Strategy) : Strategy := {|
  bid_spread := bid_spread self;
  ask_spread := ask_spread self;
  order_refresh_time := order_refresh_time self;
  order_amount := order_amount self;
  create_timestamp := create_timestamp self;
  trading_pair := trading_pair self;
  exchange := exchange self;
  price_source := price_source self;
  candles_length := candles_length self;
  risk_aversion := r;
  min_spread := min_spread self
|}.

(* ------------------------------------------------------------------ *)
(** ** Events a method emits *)

Inductive LogMsg : Type :=
| MsgTickRefreshing
| MsgNoCandles
| MsgCalculated (bid ask volatility inventory_ratio : Q)
| MsgErrorSpreads (e : exn)
| MsgProposal (ref_price buy_price sell_price : Q)
| MsgAdjusted (before after : nat)
| MsgPlaced (order_type : string) (amount price : Q)
| MsgCanceling (n : nat).

Inductive Event : Type :=
| Log (level : LogLevel) (msg : LogMsg)
| CancelOrder (exchange trading_pair client_order_id : string)
| BuyOrder (connector_name trading_pair : string) (amount : Q) (ot : OrderType) (price : Q)
| SellOrder (connector_name trading_pair : string) (amount : Q) (ot : OrderType) (price : Q).

(* ------------------------------------------------------------------ *)
(** ** The method monad: state, trace and exceptions *)

Definition M (A : Type) : Type := Strategy -> result A * Strategy * list Event.

Definition ret {A} (a : A) : M A := fun self => (Ok a, self, []).

Definition bind {A B} (m : M A) (k : A -> M B) : M B :=
  fun self =>
    match m self with
    | (Ok a, self', tr) =>
        match k a self' with
        | (r, self'', tr') => (r, self'', tr ++ tr')
        end
    | (Raise e, self', tr) => (Raise e, self', tr)
    end.

Notation "x <- m ;; k" := (bind m (fun x => k))
  (at level 61, m at next level, right associativity).
Notation "m ;;; k" := (bind m (fun _ => k))
  (at level 61, right associativity).

(** [self.attr] *)
Definition attr {A} (f : Strategy -> A) : M A := fun self => (Ok (f self), self, []).

(** [self.attr = v] *)
Definition assign (upd : Strategy -> Strategy) : M unit :=
  fun self => (Ok tt, upd self, []).

(** An accessor's answer: its value, or its exception raised here. *)
Definition call {A} (r : result A) : M A := fun self => (r, self, []).

Definition emit (ev : Event) : M unit := fun self => (Ok tt, self, [ev]).

(** [self.log_with_clock(level, msg)] *)
Definition log_with_clock (level : LogLevel) (msg : LogMsg) : M unit :=
  emit (Log level msg).

(** [try: body except Exception as e: handler(e)] *)
Definition try_except {A} (body : M A) (handler : exn -> M A) : M A :=
  fun self =>
    match body self with
    | (Ok a, self', tr) => (Ok a, self', tr)
    | (Raise e, self', tr) =>
        match handler e self' with
        | (r, self'', tr') => (r, self'', tr ++ tr')
        end
    end.

(** [for x in xs: body(x)] *)
Fixpoint for_each {A} (xs : list A) (body : A -> M unit) : M unit :=
  match xs with
  | [] => ret tt
  | x :: rest => body x ;;; for_each rest body
  end.

(* ------------------------------------------------------------------ *)
(** ** The methods *)

(** [get_candles_with_features] *)
Definition get_candles_with_features (h : Host) : M DataFrame :=
  candles_df <- call (candles_df h) ;;
  n <- attr candles_length ;;
  candles_df <- call (ta_rsi h n candles_df) ;;
  n <- attr candles_length ;;
  candles_df <- call (ta_natr h n 1 candles_df) ;;
  ret candles_df.

(** The spread arithmetic of [calculate_spreads], from [target_ratio]
    on: the pair [(bid_spread, ask_spread)] it computes from
    [self.min_spread], the volatility and the inventory ratio. *)
Definition skewed_spreads (min_spread volatility inventory_ratio : Q) : Q * Q :=
  let target_ratio := 0.5 in
  let inventory_deviation := inventory_ratio - target_ratio in
  let base_spread := py_max min_spread (volatility * 5) in
  if Qlt_bool 0 inventory_deviation then
    let bid_spread := py_max min_spread (base_spread * (1 - inventory_deviation * 0.5)) in
    let ask_spread := py_max min_spread (base_spread * (1 + inventory_deviation * 0.5)) in
    (bid_spread, ask_spread)
  else
    let inventory_deviation := py_abs inventory_deviation in
    let bid_spread := py_max min_spread (base_spread * (1 + inventory_deviation * 0.5)) in
    let ask_spread := py_max min_spread (base_spread * (1 - inventory_deviation * 0.5)) in
    (bid_spread, ask_spread).

(** The inventory ratio of [calculate_spreads]. *)
Definition inventory_ratio_of (base_balance quote_balance : Q) : Q :=
  let total_value := base_balance + quote_balance in
  if Qlt_bool 0 total_value then base_balance / total_value else 0.5.

(** The [try] block of [calculate_spreads]. *)
Definition calculate_spreads_try (h : Host) : M (Q * Q) :=
  candles_df <- get_candles_with_features h ;;
  if df_empty candles_df then
    log_with_clock INFO MsgNoCandles ;;;
    b <- attr bid_spread ;;
    a <- attr ask_spread ;;
    ret (b, a)
  else
    n <- attr candles_length ;;
    let natr_col := natr_label n in
    volatility <-
      (if has_column natr_col candles_df then
         series <- call (lookup natr_col (columns candles_df)) ;;
         call (iloc_last series)
       else ret 0.001) ;;
    ex <- attr exchange ;;
    tp <- attr trading_pair ;;
    ps <- attr price_source ;;
    conn <- call (lookup ex (connectors h)) ;;
    base_asset <- call (index (split "-" tp) 0) ;;
    base_balance <- call (get_balance conn base_asset) ;;
    mid <- call (get_price_by_type conn tp ps) ;;
    quote_asset <- call (index (split "-" tp) 1) ;;
    quote_units <- call (get_balance conn quote_asset) ;;
    let quote_balance := mid * quote_units in
    let inventory_ratio := inventory_ratio_of base_balance quote_balance in
    ms <- attr min_spread ;;
    let '(bid_spread, ask_spread) := skewed_spreads ms volatility inventory_ratio in
    log_with_clock INFO (MsgCalculated bid_spread ask_spread volatility inventory_ratio) ;;;
    ret (bid_spread, ask_spread).

(** The [except Exception as e] block of [calculate_spreads]. *)
Definition calculate_spreads_except (e : exn) : M (Q * Q) :=
  log_with_clock ERROR (MsgErrorSpreads e) ;;;
  b <- attr bid_spread ;;
  a <- attr ask_spread ;;
  ret (b, a).

(** [calculate_spreads] *)
Definition calculate_spreads (h : Host) : M (Q * Q) :=
  try_except (calculate_spreads_try h) calculate_spreads_except.

(** [create_proposal] *)
Definition create_proposal (h : Host) : M (list OrderCandidate) :=
  ex <- attr exchange ;;
  tp <- attr trading_pair ;;
  ps <- attr price_source ;;
  conn <- call (lookup ex (connectors h)) ;;
  ref_price <- call (get_price_by_type conn tp ps) ;;
  spreads <- calculate_spreads h ;;
  let '(bid_spread, ask_spread) := spreads in
  let buy_price := ref_price * (1 - bid_spread) in
  let sell_price := ref_price * (1 + ask_spread) in
  best_bid <- call (get_price conn tp false) ;;
  best_ask <- call (get_price conn tp true) ;;
  let buy_price := py_min buy_price best_bid in
  let sell_price := py_max sell_price best_ask in
  oa <- attr order_amount ;;
  let buy_order := {| oc_trading_pair := tp; is_maker := true; order_type := LIMIT;
                      order_side := BUY; amount := oa; price := buy_price |} in
  let sell_order := {| oc_trading_pair := tp; is_maker := true; order_type := LIMIT;
                       order_side := SELL; amount := oa; price := sell_price |} in
  log_with_clock INFO (MsgProposal ref_price buy_price sell_price) ;;;
  ret [buy_order; sell_order].

(** [adjust_proposal_to_budget] *)
Definition adjust_proposal_to_budget (h : Host) (proposal : list OrderCandidate)
  : M (list OrderCandidate) :=
  ex <- attr exchange ;;
  conn <- call (lookup ex (connectors h)) ;;
  proposal_adjusted <- call (adjust_candidates conn proposal true) ;;
  (if negb (List.length proposal_adjusted =? List.length proposal)%nat then
     log_with_clock WARNING
       (MsgAdjusted (List.length proposal) (List.length proposal_adjusted))
   else ret tt) ;;;
  ret proposal_adjusted.

(** [place_order] *)
Definition place_order (connector_name : string) (order : OrderCandidate) : M unit :=
  match order_side order with
  | SELL => emit (SellOrder connector_name (oc_trading_pair order) (amount order)
                            (order_type order) (price order))
  | BUY => emit (BuyOrder connector_name (oc_trading_pair order) (amount order)
                          (order_type order) (price order))
  | RANGE => ret tt
  end.

(** [place_orders] *)
Definition place_orders (proposal : list OrderCandidate) : M unit :=
  for_each proposal (fun order =>
    ex <- attr exchange ;;
    place_order ex order ;;;
    let order_type := (match order_side order with BUY => "BUY" | _ => "SELL" end)%string in
    log_with_clock INFO (MsgPlaced order_type (amount order) (price order))).

(** [cancel_all_orders] *)
Definition cancel_all_orders (h : Host) : M unit :=
  ex <- attr exchange ;;
  let orders := get_active_orders h ex in
  match orders with
  | [] => ret tt
  | _ :: _ =>
      log_with_clock INFO (MsgCanceling (List.length orders)) ;;;
      for_each orders (fun order =>
        ex <- attr exchange ;;
        emit (CancelOrder ex (ao_trading_pair order) (client_order_id order)))
  end.

(** [on_tick] *)
Definition on_tick (h : Host) : M unit :=
  ct <- attr create_timestamp ;;
  if Qle_bool ct (current_timestamp h) then
    log_with_clock INFO MsgTickRefreshing ;;;
    cancel_all_orders h ;;;
    proposal <- create_proposal h ;;
    proposal_adjusted <- adjust_proposal_to_budget h proposal ;;
    place_orders proposal_adjusted ;;;
    ort <- attr order_refresh_time ;;
    assign (set_create_timestamp (ort + current_timestamp h))
  else ret tt.

(* ------------------------------------------------------------------ *)
(** ** Sample hosts *)

Definition paper_connector (mid : Q) : Connector := {|
  get_balance := fun asset => if String.eqb asset "SOL" then Ok 7 else Ok 300;
  get_price_by_type := fun _ _ => Ok mid;
  get_price := fun _ is_buy => if is_buy then Ok (mid + 0.0001) else Ok (mid - 0.0001);
  adjust_candidates := fun proposal _ => Ok proposal
|}.

(** pandas_ta appending the NATR column with the given values. *)
Definition natr_appends (values : list Q) (n : nat) (scalar : Q) (df : DataFrame)
  : result DataFrame :=
  Ok {| index_len := index_len df;
        columns := columns df ++ [(natr_label n, values)] |}.

Definition sample_candles : DataFrame :=
  {| index_len := 2; columns := [("close"%string, [1; 2])] |}.

(** A host with candles, volatility 0.002 and an inventory ratio of 0.7. *)
Definition sample_host : Host := {|
  current_timestamp := 100;
  connectors := [("binance_paper_trade"%string, paper_connector 0.01)];
  candles_df := Ok sample_candles;
  ta_rsi := fun _ df => Ok df;
  ta_natr := natr_appends [0.001; 0.002];
  get_active_orders := fun _ =>
    [{| ao_trading_pair := "SOL-USDT"; client_order_id := "buy-1" |}]
|}.

(* ------------------------------------------------------------------ *)
(** ** Runs of a method *)

Definition returned {A} (run : result A * Strategy * list Event) : result A := fst (fst run).
Definition final {A} (run : result A * Strategy * list Event) : Strategy := snd (fst run).
Definition trace {A} (run : result A * Strategy * list Event) : list Event := snd run.

(** A computation that never writes an attribute. *)
Definition read_only {A} (m : M A) : Prop := forall self, final (m self) = self.

(** A computation that never raises. *)
Definition never_raises {A} (m : M A) : Prop := forall self, exists a, returned (m self) = Ok a.

(** A computation whose run does not depend on [self.risk_aversion]. *)
Definition ignores_risk_aversion {A} (m : M A) : Prop :=
  forall ra self,
    m (set_risk_aversion ra self) =
    (returned (m self), set_risk_aversion ra (final (m self)), trace (m self)).

(** How a refresh cycle leaves the object: the timer set, or (when a host
    call raised) untouched. *)
Definition refresh_outcome (h : Host) (m : M unit) : Prop :=
  forall self,
    (returned (m self) = Ok tt /\
     final (m self) =
       set_create_timestamp (order_refresh_time self + current_timestamp h) self)
    \/ (exists e, returned (m self) = Raise e /\ final (m self) = self).

(* ------------------------------------------------------------------ *)
(** ** What the host supplies to one spread calculation *)

(** The volatility [calculate_spreads] reads off the frame [df]: the last
    value of the NATR column, or 0.001 when the frame has no such column. *)
Definition reads_volatility (self : Strategy) (df : DataFrame) (volatility : Q) : Prop :=
  let natr_col := natr_label (candles_length self) in
  (has_column natr_col df = true /\
   exists series, lookup natr_col (columns df) = Ok series /\ iloc_last series = Ok volatility)
  \/ (has_column natr_col df = false /\ volatility = 0.001).

(** The connector answers the two balance reads and the price read:
    [base_balance] and [quote_balance] are the locals of that name. *)
Definition reads_balances (h : Host) (self : Strategy) (base_balance quote_balance : Q) : Prop :=
  exists conn base_asset quote_asset mid quote_units,
    lookup (exchange self) (connectors h) = Ok conn /\
    index (split "-" (trading_pair self)) 0 = Ok base_asset /\
    get_balance conn base_asset = Ok base_balance /\
    get_price_by_type conn (trading_pair self) (price_source self) = Ok mid /\
    index (split "-" (trading_pair self)) 1 = Ok quote_asset /\
    get_balance conn quote_asset = Ok quote_units /\
    quote_balance = mid * quote_units.

(** The feed delivers the non-empty frame [df]. *)
Definition candles_ready (h : Host) (self : Strategy) (df : DataFrame) : Prop :=
  returned (get_candles_with_features h self) = Ok df /\ df_empty df = false.

(** The host supplies a market snapshot from which [calculate_spreads]
    reads the given volatility and inventory ratio. *)
Definition snapshot (h : Host) (self : Strategy) (volatility inventory_ratio : Q) : Prop :=
  exists df base_balance quote_balance,
    candles_ready h self df /\
    reads_volatility self df volatility /\
    reads_balances h self base_balance quote_balance /\
    inventory_ratio = inventory_ratio_of base_balance quote_balance.

(* ------------------------------------------------------------------ *)
(** ** The reference algorithm of the specification (section 4.1) *)

Definition volatility_multiplier : Q := 5.
Definition skew_factor : Q := 0.5.

(** The algorithm as the specification words it, with the mathematical
    maximum and absolute value. *)
Definition reference_spreads (min_spread volatility inventory_ratio : Q) : Q * Q :=
  let base_spread := Qmax min_spread (volatility * volatility_multiplier) in
  let deviation := inventory_ratio - 0.5 in
  if Qlt_le_dec 0 deviation then
    (Qmax min_spread (base_spread * (1 - Qabs deviation * skew_factor)),
     Qmax min_spread (base_spread * (1 + Qabs deviation * skew_factor)))
  else
    (Qmax min_spread (base_spread * (1 + Qabs deviation * skew_factor)),
     Qmax min_spread (base_spread * (1 - Qabs deviation * skew_factor))).

(** The two products [calculate_spreads] floors at [self.min_spread]:
    the second arguments of the four [max] calls of the skew branches. *)
Definition unfloored_spreads (min_spread volatility inventory_ratio : Q) : Q * Q :=
  let target_ratio := 0.5 in
  let inventory_deviation := inventory_ratio - target_ratio in
  let base_spread := py_max min_spread (volatility * 5) in
  if Qlt_bool 0 inventory_deviation then
    (base_spread * (1 - inventory_deviation * 0.5),
     base_spread * (1 + inventory_deviation * 0.5))
  else
    let inventory_deviation := py_abs inventory_deviation in
    (base_spread * (1 + inventory_deviation * 0.5),
     base_spread * (1 - inventory_deviation * 0.5)).

(** Flooring a pair at [min_spread], as [calculate_spreads] does. *)
Definition floor_at (min_spread : Q) (p : Q * Q) : Q * Q :=
  (py_max min_spread (fst p), py_max min_spread (snd p)).

(** Numeric equality of pairs, and the exchange of bid and ask. *)
Definition pair_eq (p q : Q * Q) : Prop := fst p == fst q /\ snd p == snd q.
Definition swap (p : Q * Q) : Q * Q := (snd p, fst p).

(* ------------------------------------------------------------------ *)
(** ** Lives of a strategy object *)

(** The states the object goes through: it starts with the class
    attributes, and the host calls [on_tick] and (through [format_status]
    or [create_proposal]) [calculate_spreads]. *)
Inductive reachable : Strategy -> Prop :=
| reach_class : reachable AdaptiveMarketMaker
| reach_on_tick h self : reachable self -> reachable (final (on_tick h self))
| reach_calculate_spreads h self :
    reachable self -> reachable (final (calculate_spreads h self))
| reach_create_proposal h self :
    reachable self -> reachable (final (create_proposal h self)).

(** One call of [on_tick]: the host's answers, the object before the
    call, and the run. *)
Record Tick : Type := {
  tick_host : Host;
  before : Strategy;
  tick_run : result unit * Strategy * list Event
}.

(** Successive ticks: each starts from the object the previous one left. *)
Fixpoint run_ticks (hs : list Host) (self : Strategy) : list Tick :=
  match hs with
  | [] => []
  | h :: rest =>
      let r := on_tick h self in
      {| tick_host := h; before := self; tick_run := r |} :: run_ticks rest (final r)
  end.

Definition tick_time (t : Tick) : Q := current_timestamp (tick_host t).

(** The tick was due: it entered the refresh cycle. *)
Definition due (t : Tick) : bool :=
  Qle_bool (create_timestamp (before t)) (tick_time t).

(** The tick completed a refresh cycle. *)
Definition refreshed (t : Tick) : bool :=
  due t && match returned (tick_run t) with Ok _ => true | Raise _ => false end.

(* ------------------------------------------------------------------ *)
(** ** More sample hosts *)

(** The frame pandas_ta leaves without a NATR column. *)
Definition natr_skipped (n : nat) (scalar : Q) (df : DataFrame) : result DataFrame := Ok df.

(** A connector whose order book is not there yet. *)
Definition no_book_connector : Connector := {|
  get_balance := fun asset => if String.eqb asset "SOL" then Ok 7 else Ok 300;
  get_price_by_type := fun tp _ => Raise (HostError ("No order book exists for " ++ tp));
  get_price := fun tp _ => Raise (HostError ("No order book exists for " ++ tp));
  adjust_candidates := fun proposal _ => Ok proposal
|}.

(** Candles without NATR and a connector without order book. *)
Definition no_book_host : Host := {|
  current_timestamp := 100;
  connectors := [("binance_paper_trade"%string, no_book_connector)];
  candles_df := Ok sample_candles;
  ta_rsi := fun _ df => Ok df;
  ta_natr := natr_skipped;
  get_active_orders := fun _ => []
|}.

(** Candles without NATR, balances and price available. *)
Definition short_history_host : Host := {|
  current_timestamp := 100;
  connectors := [("binance_paper_trade"%string, paper_connector 0.01)];
  candles_df := Ok sample_candles;
  ta_rsi := fun _ df => Ok df;
  ta_natr := natr_skipped;
  get_active_orders := fun _ => []
|}.

(** No candles yet. *)
Definition no_candles_host : Host := {|
  current_timestamp := 100;
  connectors := [("binance_paper_trade"%string, paper_connector 0.01)];
  candles_df := Ok {| index_len := 0; columns := [("close"%string, [])] |};
  ta_rsi := fun _ df => Ok df;
  ta_natr := natr_skipped;
  get_active_orders := fun _ => []
|}.

(** The sample host at another time. *)
Definition sample_host_at (t : Q) : Host := {|
  current_timestamp := t;
  connectors := connectors sample_host;
  candles_df := candles_df sample_host;
  ta_rsi := ta_rsi sample_host;
  ta_natr := ta_natr sample_host;
  get_active_orders := get_active_orders sample_host
|}.

(** The sample host with other balances: [base] units of SOL and
    [quote] of USDT at a mid price of 1. *)
Definition host_with_balances (base quote : Q) : Host := {|
  current_timestamp := 100;
  connectors := [("binance_paper_trade"%string, {|
    get_balance := fun asset => if String.eqb asset "SOL" then Ok base else Ok quote;
    get_price_by_type := fun _ _ => Ok 1;
    get_price := fun _ is_buy => if is_buy then Ok 1.0001 else Ok 0.9999;
    adjust_candidates := fun proposal _ => Ok proposal |})];
  candles_df := Ok sample_candles;
  ta_rsi := fun _ df => Ok df;
  ta_natr := natr_appends [0.001; 0.002];
  get_active_orders := fun _ => []
|}.

(* ------------------------------------------------------------------ *)
(** ** Hosts and notions for the further properties *)

(** A host with candles whose NATR column holds [natr], [base] units of
    SOL, [quote] of USDT and a mid price of [mid]; the book is 0.0001
    either side of the mid price. *)
Definition market_host (natr : list Q) (base quote mid : Q) : Host := {|
  current_timestamp := 100;
  connectors := [("binance_paper_trade"%string, {|
    get_balance := fun asset => if String.eqb asset "SOL" then Ok base else Ok quote;
    get_price_by_type := fun _ _ => Ok mid;
    get_price := fun _ is_buy => if is_buy then Ok (mid + 0.0001) else Ok (mid - 0.0001);
    adjust_candidates := fun proposal _ => Ok proposal |})];
  candles_df := Ok sample_candles;
  ta_rsi := fun _ df => Ok df;
  ta_natr := natr_appends natr;
  get_active_orders := fun _ => []
|}.

(** [c in s] for a character [c]. *)
Fixpoint contains (c : ascii) (s : string) : bool :=
  match s with
  | EmptyString => false
  | String c' rest => Ascii.eqb c' c || contains c rest
  end.

(** A strategy object whose trading pair has no dash. *)
Definition undashed_strategy : Strategy := {|
  bid_spread := 0.001;
  ask_spread := 0.001;
  order_refresh_time := 15;
  order_amount := 1;
  create_timestamp := 0;
  trading_pair := "SOLUSDT";
  exchange := "binance_paper_trade";
  price_source := MidPrice;
  candles_length := 30;
  risk_aversion := 0.9;
  min_spread := 0.001
|}.

(** The calls to the order API among the events of a run. *)
Definition is_order_call (ev : Event) : bool :=
  match ev with
  | Log _ _ => false
  | CancelOrder _ _ _ | BuyOrder _ _ _ _ _ | SellOrder _ _ _ _ _ => true
  end.

Definition order_calls (tr : list Event) : list Event := filter is_order_call tr.

(** The cancel call [cancel_all_orders] makes for an active order. *)
Definition cancel_call (exchange : string) (order : ActiveOrder) : Event :=
  CancelOrder exchange (ao_trading_pair order) (client_order_id order).

(** The order API calls [place_order] makes for a candidate. *)
Definition submit_calls (connector_name : string) (order : OrderCandidate) : list Event :=
  match order_side order with
  | SELL => [SellOrder connector_name (oc_trading_pair order) (amount order)
                       (order_type order) (price order)]
  | BUY => [BuyOrder connector_name (oc_trading_pair order) (amount order)
                     (order_type order) (price order)]
  | RANGE => []
  end.

(** A read of [create_proposal] raises [e]: the connector is missing, or
    one of its three price reads raises. *)
Definition price_read_raises (h : Host) (self : Strategy) (e : exn) : Prop :=
  lookup (exchange self) (connectors h) = Raise e \/
  exists conn,
    lookup (exchange self) (connectors h) = Ok conn /\
    (get_price_by_type conn (trading_pair self) (price_source self) = Raise e \/
     get_price conn (trading_pair self) false = Raise e \/
     get_price conn (trading_pair self) true = Raise e).

(** A computation that emits log lines only: it never calls the order
    API. *)
Definition logs_only {A} (m : M A) : Prop :=
  forall self, order_calls (trace (m self)) = [].

(** The events [place_orders] emits for one candidate. *)
Definition placed_events (connector_name : string) (order : OrderCandidate) : list Event :=
  submit_calls connector_name order ++
  [Log INFO (MsgPlaced (match order_side order with BUY => "BUY" | _ => "SELL" end)%string
                       (amount order) (price order))].

(** The events [cancel_all_orders] emits for a list of active orders. *)
Definition cancel_events (exchange : string) (orders : list ActiveOrder) : list Event :=
  match orders with
  | [] => []
  | _ :: _ => Log INFO (MsgCanceling (List.length orders)) :: map (cancel_call exchange) orders
  end.

(** The sample host with an empty budget: the checker drops every
    candidate. *)
Definition broke_host : Host := {|
  current_timestamp := 100;
  connectors := [("binance_paper_trade"%string, {|
    get_balance := fun asset => if String.eqb asset "SOL" then Ok 7 else Ok 300;
    get_price_by_type := fun _ _ => Ok 0.01;
    get_price := fun _ is_buy => if is_buy then Ok (0.01 + 0.0001) else Ok (0.01 - 0.0001);
    adjust_candidates := fun _ _ => Ok [] |})];
  candles_df := Ok sample_candles;
  ta_rsi := fun _ df => Ok df;
  ta_natr := natr_appends [0.001; 0.002];
  get_active_orders := fun _ =>
    [{| ao_trading_pair := "SOL-USDT"; client_order_id := "buy-1" |};
     {| ao_trading_pair := "SOL-USDT"; client_order_id := "sell-1" |}]
|}.

(** A host with two active orders and a connector without order book. *)
Definition stale_book_host : Host := {|
  current_timestamp := 100;
  connectors := [("binance_paper_trade"%string, no_book_connector)];
  candles_df := Ok sample_candles;
  ta_rsi := fun _ df => Ok df;
  ta_natr := natr_appends [0.001; 0.002];
  get_active_orders := fun _ =>
    [{| ao_trading_pair := "SOL-USDT"; client_order_id := "buy-1" |};
     {| ao_trading_pair := "SOL-USDT"; client_order_id := "sell-1" |}]
|}.

(* ------------------------------------------------------------------ *)
(** ** The status display *)

(** [self.active_orders_df()]: a frame, given as the lines of its
    [to_string(index=False)], or a [ValueError] (no active orders), or
    another exception. *)
Inductive OrdersFrame : Type :=
| ActiveOrders (lines : list string)
| RaisesValueError
| RaisesOther (e : exn).

(** What the host answers to [format_status] beyond the [Host] record. *)
Record StatusHost : Type := {
  ready_to_trade : bool;
  balance_df_lines : result (list string);   (* get_balance_df().to_string(index=False).split("\n") *)
  active_orders_df : OrdersFrame;
  candles_name : string;                     (* self.candles.name *)
  candles_interval_name : string;            (* self.candles.interval *)
  frame_lines : DataFrame -> list string;    (* df.to_string(index=False).split("\n") *)
  format_float : nat -> Q -> string          (* f"{x:.nf}" *)
}.

Definition newline : string := String (ascii_of_nat 10) EmptyString.

(** ["\n" + 70 dashes + "\n"] *)
Definition rule_line : string :=
  newline ++ "----------------------------------------------------------------------"
          ++ newline.

(** [["    " + line for line in lines]] *)
Definition indented (lines : list string) : list string :=
  map (fun line => "    " ++ line)%string lines.

(** The last [n] elements of a list. *)
Definition last_n {A} (n : nat) (xs : list A) : list A :=
  skipn (List.length xs - n) xs.

(** [df.tail(n)] *)
Definition df_tail (n : nat) (df : DataFrame) : DataFrame := {|
  index_len := Nat.min n (index_len df);
  columns := map (fun c => (fst c, last_n n (snd c))) (columns df)
|}.

(** [df.iloc[::-1]] *)
Definition df_reversed (df : DataFrame) : DataFrame := {|
  index_len := index_len df;
  columns := map (fun c => (fst c, rev (snd c))) (columns df)
|}.

(** The inventory share [format_status] displays, in percent; nothing is
    displayed when the total value is not positive. *)
Definition status_inventory_ratio (base_balance quote_balance mid_price : Q) : option Q :=
  let total_value := quote_balance + (base_balance * mid_price) in
  if Qlt_bool 0 total_value then
    Some ((base_balance * mid_price) / total_value * 100)
  else None.

(** [format_status] *)
Definition format_status (h : Host) (sh : StatusHost) : M string :=
  if negb (ready_to_trade sh) then ret "Market connectors are not ready."%string
  else
    let lines : list string := [] in
    balance_lines <- call (balance_df_lines sh) ;;
    let lines := lines ++ [""; "  Balances:"]%string ++ indented balance_lines in
    orders_block <-
      match active_orders_df sh with
      | ActiveOrders df_lines => ret ([""; "  Orders:"]%string ++ indented df_lines)
      | RaisesValueError => ret [""; "  No active maker orders."]%string
      | RaisesOther e => call (Raise e)
      end ;;
    let lines := lines ++ orders_block in
    let lines := lines ++ [rule_line] in
    let lines := lines ++ ["  Strategy Metrics:"]%string in
    tp <- attr trading_pair ;;
    base_asset <- call (index (split "-" tp) 0) ;;
    quote_asset <- call (index (split "-" tp) 1) ;;
    ex <- attr exchange ;;
    ps <- attr price_source ;;
    conn <- call (lookup ex (connectors h)) ;;
    base_balance <- call (get_balance conn base_asset) ;;
    quote_balance <- call (get_balance conn quote_asset) ;;
    mid_price <- call (get_price_by_type conn tp ps) ;;
    let lines := lines ++
      ["  Current Inventory: " ++ format_float sh 4 base_balance ++ " " ++ base_asset ++ ", "
         ++ format_float sh 2 quote_balance ++ " " ++ quote_asset]%string in
    let lines := lines ++ ["  Current Price: " ++ format_float sh 4 mid_price]%string in
    let lines :=
      match status_inventory_ratio base_balance quote_balance mid_price with
      | Some inventory_ratio =>
          lines ++ ["  Inventory Ratio: " ++ format_float sh 2 inventory_ratio ++ "% in "
                      ++ base_asset]%string
      | None => lines
      end in
    spreads <- calculate_spreads h ;;
    let '(bid_spread, ask_spread) := spreads in
    let lines := lines ++
      ["  Bid Spread: " ++ format_float sh 4 (bid_spread * 100) ++ "%, Ask Spread: "
         ++ format_float sh 4 (ask_spread * 100) ++ "%"]%string in
    let lines := lines ++ [rule_line] in
    candles_df <- get_candles_with_features h ;;
    let lines := lines ++
      ["  Candles: " ++ candles_name sh ++ " | Interval: " ++ candles_interval_name sh;
       ""]%string in
    let lines :=
      if negb (df_empty candles_df) then
        let display_df := df_reversed (df_tail 5 candles_df) in
        lines ++ indented (frame_lines sh display_df)
      else lines in
    ret (String.concat newline lines).

(** A status host that is ready, with one balance line and no orders. *)
Definition sample_status_host : StatusHost := {|
  ready_to_trade := true;
  balance_df_lines := Ok ["Asset  Total"; "  SOL      7"]%string;
  active_orders_df := RaisesValueError;
  candles_name := "binance_SOL-USDT";
  candles_interval_name := "1m";
  frame_lines := fun _ => [];
  format_float := fun _ _ => "?"%string
|}.

(** The host with two active orders and no order book, at time [t]. *)
Definition stale_book_host_at (t : Q) : Host := {|
  current_timestamp := t;
  connectors := connectors stale_book_host;
  candles_df := candles_df stale_book_host;
  ta_rsi := ta_rsi stale_book_host;
  ta_natr := ta_natr stale_book_host;
  get_active_orders := get_active_orders stale_book_host
|}.

(** What a tick shows from outside: whether it was due, its calls to the
    order API, and the timer it leaves. *)
Definition tick_summary (t : Tick) : bool * list Event * Q :=
  (due t, order_calls (trace (tick_run t)), create_timestamp (final (tick_run t))).

(* ================================================================== *)
(** * Properties *)

(** ** Comparisons and builtins *)

Lemma Qlt_bool_iff (x y : Q) : Qlt_bool x y = true <-> x < y.
Proof. unfold Qlt_bool, Qlt. apply Z.ltb_lt. Qed.

Lemma Qlt_bool_false_iff (x y : Q) : Qlt_bool x y = false <-> y <= x.
Proof. unfold Qlt_bool, Qle. apply Z.ltb_ge. Qed.

Lemma py_max_Qmax (a b : Q) : py_max a b = Qmax a b.
Proof.
  unfold py_max, Qmax, GenericMinMax.gmax, Qlt_bool, Qcompare, Z.ltb.
  destruct (Qnum a * QDen b ?= Qnum b * QDen a)%Z; reflexivity.
Qed.

Lemma py_min_Qmin (a b : Q) : py_min a b = Qmin a b.
Proof.
  unfold py_min, Qmin, GenericMinMax.gmin, Qlt_bool, Qcompare, Z.ltb.
  rewrite (Z.compare_antisym (Qnum a * QDen b) (Qnum b * QDen a)).
  destruct (Qnum a * QDen b ?= Qnum b * QDen a)%Z; reflexivity.
Qed.

Lemma py_max_cases (a b : Q) :
  (a < b /\ py_max a b = b) \/ (b <= a /\ py_max a b = a).
Proof.
  unfold py_max. destruct (Qlt_bool a b) eqn:E.
  - left. split; [now apply Qlt_bool_iff | reflexivity].
  - right. split; [now apply Qlt_bool_false_iff | reflexivity].
Qed.

Lemma py_min_cases (a b : Q) :
  (b < a /\ py_min a b = b) \/ (a <= b /\ py_min a b = a).
Proof.
  unfold py_min. destruct (Qlt_bool b a) eqn:E.
  - left. split; [now apply Qlt_bool_iff | reflexivity].
  - right. split; [now apply Qlt_bool_false_iff | reflexivity].
Qed.

Lemma py_max_lower (a b : Q) : a <= py_max a b.
Proof. destruct (py_max_cases a b) as [[H ->] | [H ->]]; lra. Qed.

Lemma py_max_upper (a b : Q) : b <= py_max a b.
Proof. destruct (py_max_cases a b) as [[H ->] | [H ->]]; lra. Qed.

Lemma py_min_upper (a b : Q) : py_min a b <= b.
Proof. destruct (py_min_cases a b) as [[H ->] | [H ->]]; lra. Qed.

Lemma py_max_monotone (a x y : Q) : x <= y -> py_max a x <= py_max a y.
Proof.
  intros Hxy.
  destruct (py_max_cases a x) as [[H1 ->] | [H1 ->]];
    destruct (py_max_cases a y) as [[H2 ->] | [H2 ->]]; lra.
Qed.

Lemma py_max_compat (a x y : Q) : x == y -> py_max a x == py_max a y.
Proof.
  intros Hxy. apply Qle_antisym; apply py_max_monotone; lra.
Qed.

Lemma Qabs_of_pos (x : Q) : 0 < x -> Qabs x = x.
Proof.
  destruct x as [n d]. unfold Qlt. simpl. intros H.
  rewrite Z.abs_eq by lia. reflexivity.
Qed.

(** ** The spread arithmetic *)

Lemma skewed_spreads_reference (ms v r : Q) :
  skewed_spreads ms v r = reference_spreads ms v r.
Proof.
  unfold skewed_spreads, reference_spreads, volatility_multiplier, skew_factor, py_abs.
  rewrite !py_max_Qmax.
  destruct (Qlt_bool 0 (r - 0.5)) eqn:E; destruct (Qlt_le_dec 0 (r - 0.5)) as [L | L].
  - apply Qlt_bool_iff in E. rewrite (Qabs_of_pos _ E). reflexivity.
  - apply Qlt_bool_iff in E. lra.
  - apply Qlt_bool_false_iff in E. lra.
  - reflexivity.
Qed.

Lemma skewed_spreads_floor (ms v r : Q) :
  skewed_spreads ms v r = floor_at ms (unfloored_spreads ms v r).
Proof.
  unfold skewed_spreads, unfloored_spreads, floor_at.
  destruct (Qlt_bool 0 (r - 0.5)); reflexivity.
Qed.

Lemma skewed_spreads_floored (ms v r : Q) :
  ms <= fst (skewed_spreads ms v r) /\ ms <= snd (skewed_spreads ms v r).
Proof.
  rewrite skewed_spreads_floor. unfold floor_at. cbn [fst snd].
  split; apply py_max_lower.
Qed.

Lemma skewed_spreads_at_half (ms v r : Q) :
  r == 0.5 ->
  fst (skewed_spreads ms v r) == py_max ms (v * 5) /\
  snd (skewed_spreads ms v r) == py_max ms (v * 5).
Proof.
  intros Hr. unfold skewed_spreads, py_abs.
  assert (Hd : r - 0.5 == 0) by lra.
  assert (E : Qlt_bool 0 (r - 0.5) = false) by (apply Qlt_bool_false_iff; lra).
  rewrite E. cbn [fst snd].
  assert (Ha : Qabs (r - 0.5) == 0) by (rewrite Hd; reflexivity).
  pose proof (py_max_lower ms (v * 5)) as Hb.
  set (base := py_max ms (v * 5)) in *.
  split.
  - destruct (py_max_cases ms (base * (1 + Qabs (r - 0.5) * 0.5))) as [[H ->] | [H ->]];
      rewrite Ha in *; lra.
  - destruct (py_max_cases ms (base * (1 - Qabs (r - 0.5) * 0.5))) as [[H ->] | [H ->]];
      rewrite Ha in *; lra.
Qed.

(** Above the target ratio the branch taken is the long one, at the
    target it is the short one with a deviation of 0: in both cases the
    pair is the base spread scaled by [1 -/+ (r - 0.5) * 0.5]. *)
Lemma unfloored_spreads_long (ms v r : Q) :
  0.5 <= r ->
  pair_eq (unfloored_spreads ms v r)
          (py_max ms (v * 5) * (1 - (r - 0.5) * 0.5),
           py_max ms (v * 5) * (1 + (r - 0.5) * 0.5)).
Proof.
  intros Hr. unfold unfloored_spreads, pair_eq, py_abs.
  destruct (Qlt_bool 0 (r - 0.5)) eqn:E; cbn [fst snd].
  - split; reflexivity.
  - apply Qlt_bool_false_iff in E.
    assert (Hd : r - 0.5 == 0) by lra.
    assert (Ha : Qabs (r - 0.5) == 0) by (rewrite Hd; reflexivity).
    rewrite Ha, Hd. split; lra.
Qed.

Lemma unfloored_spreads_short (ms v r : Q) :
  r <= 0.5 ->
  pair_eq (unfloored_spreads ms v r)
          (py_max ms (v * 5) * (1 + (0.5 - r) * 0.5),
           py_max ms (v * 5) * (1 - (0.5 - r) * 0.5)).
Proof.
  intros Hr. unfold unfloored_spreads, pair_eq, py_abs.
  assert (E : Qlt_bool 0 (r - 0.5) = false) by (apply Qlt_bool_false_iff; lra).
  rewrite E. cbn [fst snd].
  assert (Ha : Qabs (r - 0.5) == 0.5 - r).
  { rewrite Qabs_neg by lra. lra. }
  rewrite Ha. split; reflexivity.
Qed.

Lemma unfloored_spreads_mirror (ms v r1 r2 : Q) :
  r1 + r2 == 1 ->
  pair_eq (unfloored_spreads ms v r1) (swap (unfloored_spreads ms v r2)).
Proof.
  intros Hsum.
  destruct (Qlt_le_dec r1 0.5) as [Hd | Hd].
  - destruct (unfloored_spreads_short ms v r1) as [A1 A2]; [lra |].
    destruct (unfloored_spreads_long ms v r2) as [B1 B2]; [lra |].
    unfold pair_eq, swap in *. cbn [fst snd] in *.
    rewrite A1, A2, B1, B2.
    assert (E : r2 - 0.5 == 0.5 - r1) by lra. rewrite E. split; reflexivity.
  - destruct (unfloored_spreads_long ms v r1) as [A1 A2]; [lra |].
    destruct (unfloored_spreads_short ms v r2) as [B1 B2]; [lra |].
    unfold pair_eq, swap in *. cbn [fst snd] in *.
    rewrite A1, A2, B1, B2.
    assert (E : 0.5 - r2 == r1 - 0.5) by lra. rewrite E. split; reflexivity.
Qed.

Lemma floor_at_compat (ms : Q) (p q : Q * Q) :
  pair_eq p q -> pair_eq (floor_at ms p) (floor_at ms q).
Proof.
  intros [H1 H2]. unfold pair_eq, floor_at. cbn [fst snd].
  split; apply py_max_compat; assumption.
Qed.

Lemma floor_at_swap (ms : Q) (p : Q * Q) : floor_at ms (swap p) = swap (floor_at ms p).
Proof. reflexivity. Qed.

Lemma skewed_spreads_monotone (ms v r1 r2 : Q) :
  0 < ms -> 0.5 <= r1 -> r1 <= r2 ->
  snd (skewed_spreads ms v r1) <= snd (skewed_spreads ms v r2) /\
  fst (skewed_spreads ms v r2) <= fst (skewed_spreads ms v r1).
Proof.
  intros Hms H1 H12.
  rewrite !skewed_spreads_floor. unfold floor_at. cbn [fst snd].
  destruct (unfloored_spreads_long ms v r1) as [A1 A2]; [lra |].
  destruct (unfloored_spreads_long ms v r2) as [B1 B2]; [lra |].
  unfold pair_eq in *. cbn [fst snd] in *.
  pose proof (py_max_lower ms (v * 5)) as Hb.
  set (base := py_max ms (v * 5)) in *.
  split; apply py_max_monotone.
  - rewrite A2, B2. nra.
  - rewrite A1, B1. nra.
Qed.

(** The worked example of the specification: volatility 0.002, inventory
    ratio 0.7, minimum spread 0.001. *)
Example skewed_spreads_example :
  pair_eq (skewed_spreads 0.001 0.002 0.7) (0.009, 0.011).
Proof. split; reflexivity. Qed.

(** With no volatility the base spread is the minimum spread. *)
Example skewed_spreads_flat_market :
  pair_eq (skewed_spreads 0.001 0 0.5) (0.001, 0.001).
Proof. split; reflexivity. Qed.

(** ** Frames: what a method leaves untouched *)

Lemma read_only_ret {A} (a : A) : read_only (ret a).
Proof. intros self. reflexivity. Qed.

Lemma read_only_attr {A} (f : Strategy -> A) : read_only (attr f).
Proof. intros self. reflexivity. Qed.

Lemma read_only_call {A} (r : result A) : read_only (call r).
Proof. intros self. reflexivity. Qed.

Lemma read_only_emit (ev : Event) : read_only (emit ev).
Proof. intros self. reflexivity. Qed.

Lemma read_only_log (level : LogLevel) (msg : LogMsg) : read_only (log_with_clock level msg).
Proof. intros self. reflexivity. Qed.

Lemma read_only_bind {A B} (m : M A) (k : A -> M B) :
  read_only m -> (forall a, read_only (k a)) -> read_only (bind m k).
Proof.
  intros Hm Hk self. unfold bind, final.
  specialize (Hm self). unfold final in Hm.
  destruct (m self) as [[[a | e] s'] tr]; simpl in *; subst s'.
  - specialize (Hk a self). unfold final in Hk.
    destruct (k a self) as [[r s''] tr']. simpl in *. assumption.
  - reflexivity.
Qed.

Lemma read_only_try_except {A} (body : M A) (handler : exn -> M A) :
  read_only body -> (forall e, read_only (handler e)) -> read_only (try_except body handler).
Proof.
  intros Hm Hk self. unfold try_except, final.
  specialize (Hm self). unfold final in Hm.
  destruct (body self) as [[[a | e] s'] tr]; simpl in *; subst s'.
  - reflexivity.
  - specialize (Hk e self). unfold final in Hk.
    destruct (handler e self) as [[r s''] tr']. simpl in *. assumption.
Qed.

Lemma read_only_for_each {A} (xs : list A) (body : A -> M unit) :
  (forall x, read_only (body x)) -> read_only (for_each xs body).
Proof.
  intros Hb. induction xs as [| x rest IH]; simpl.
  - apply read_only_ret.
  - apply read_only_bind; [apply Hb | intros _; exact IH].
Qed.

Lemma read_only_if {A} (b : bool) (m1 m2 : M A) :
  read_only m1 -> read_only m2 -> read_only (if b then m1 else m2).
Proof. destruct b; auto. Qed.

Ltac frame :=
  repeat first
    [ progress intros
    | apply read_only_bind | apply read_only_try_except | apply read_only_for_each
    | apply read_only_if | apply read_only_ret | apply read_only_attr
    | apply read_only_call | apply read_only_emit | apply read_only_log
    | match goal with
      | |- read_only (match ?x with _ => _ end) => destruct x
      | |- read_only (let _ := _ in _) => cbv zeta
      end ].

Lemma get_candles_with_features_read_only (h : Host) :
  read_only (get_candles_with_features h).
Proof. unfold get_candles_with_features. frame. Qed.

Lemma calculate_spreads_try_read_only (h : Host) : read_only (calculate_spreads_try h).
Proof. unfold calculate_spreads_try. frame. Qed.

Lemma calculate_spreads_except_read_only (e : exn) : read_only (calculate_spreads_except e).
Proof. unfold calculate_spreads_except. frame. Qed.

Lemma calculate_spreads_read_only (h : Host) : read_only (calculate_spreads h).
Proof.
  unfold calculate_spreads. apply read_only_try_except.
  - apply calculate_spreads_try_read_only.
  - apply calculate_spreads_except_read_only.
Qed.

Lemma create_proposal_read_only (h : Host) : read_only (create_proposal h).
Proof. unfold create_proposal. frame. Qed.

Lemma adjust_proposal_to_budget_read_only (h : Host) (proposal : list OrderCandidate) :
  read_only (adjust_proposal_to_budget h proposal).
Proof. unfold adjust_proposal_to_budget. frame. Qed.

Lemma place_order_read_only (name : string) (order : OrderCandidate) :
  read_only (place_order name order).
Proof. unfold place_order. frame. Qed.

Lemma place_orders_read_only (proposal : list OrderCandidate) :
  read_only (place_orders proposal).
Proof. unfold place_orders. frame. apply place_order_read_only. Qed.

Lemma cancel_all_orders_read_only (h : Host) : read_only (cancel_all_orders h).
Proof. unfold cancel_all_orders. frame. Qed.

(** ** Runs of [calculate_spreads] *)

Lemma get_candles_with_features_run (h : Host) (self : Strategy) :
  get_candles_with_features h self =
  (returned (get_candles_with_features h self), self, []).
Proof.
  unfold get_candles_with_features, returned, bind, call, attr, ret.
  destruct (candles_df h) as [df | e]; cbn; [| reflexivity].
  destruct (ta_rsi h (candles_length self) df) as [df1 | e]; cbn; [| reflexivity].
  destruct (ta_natr h (candles_length self) 1 df1) as [df2 | e]; reflexivity.
Qed.

(** The [try] block on an empty frame. *)
Lemma calculate_spreads_try_no_candles (h : Host) (self : Strategy) (df : DataFrame) :
  returned (get_candles_with_features h self) = Ok df ->
  df_empty df = true ->
  calculate_spreads_try h self =
  (Ok (bid_spread self, ask_spread self), self, [Log INFO MsgNoCandles]).
Proof.
  intros Hdf Hempty. unfold calculate_spreads_try, bind at 1.
  rewrite get_candles_with_features_run, Hdf, Hempty. reflexivity.
Qed.

(** The [try] block on a snapshot. *)
Lemma calculate_spreads_try_computed
      (h : Host) (self : Strategy) (df : DataFrame) (v bb qb : Q) :
  candles_ready h self df ->
  reads_volatility self df v ->
  reads_balances h self bb qb ->
  let r := inventory_ratio_of bb qb in
  let p := skewed_spreads (min_spread self) v r in
  calculate_spreads_try h self =
  (Ok p, self, [Log INFO (MsgCalculated (fst p) (snd p) v r)]).
Proof.
  intros [Hdf Hne] Hv (conn & ba & qa & mid & qu & Hc & Hba & Hbb & Hmid & Hqa & Hqu & ->) r p.
  unfold calculate_spreads_try, bind at 1.
  rewrite get_candles_with_features_run, Hdf, Hne.
  unfold bind, attr, call, ret. cbn [fst snd].
  destruct Hv as [(Hc1 & series & Hl & Hi) | (Hc1 & ->)]; rewrite Hc1.
  - rewrite Hl, Hi, Hc, Hba, Hbb, Hmid, Hqa, Hqu.
    fold r. fold p. destruct p as [b a]. reflexivity.
  - rewrite Hc, Hba, Hbb, Hmid, Hqa, Hqu.
  fold r. fold p. destruct p as [b a]. reflexivity.
Qed.

Lemma try_except_ok {A} (body : M A) (handler : exn -> M A) self a s' tr :
  body self = (Ok a, s', tr) -> try_except body handler self = (Ok a, s', tr).
Proof. intros H. unfold try_except. rewrite H. reflexivity. Qed.

Lemma calculate_spreads_no_candles (h : Host) (self : Strategy) (df : DataFrame) :
  returned (get_candles_with_features h self) = Ok df ->
  df_empty df = true ->
  calculate_spreads h self =
  (Ok (bid_spread self, ask_spread self), self, [Log INFO MsgNoCandles]).
Proof.
  intros Hdf Hempty. unfold calculate_spreads.
  apply try_except_ok. eapply calculate_spreads_try_no_candles; eassumption.
Qed.

Lemma calculate_spreads_computed
      (h : Host) (self : Strategy) (df : DataFrame) (v bb qb : Q) :
  candles_ready h self df ->
  reads_volatility self df v ->
  reads_balances h self bb qb ->
  let r := inventory_ratio_of bb qb in
  let p := skewed_spreads (min_spread self) v r in
  calculate_spreads h self =
  (Ok p, self, [Log INFO (MsgCalculated (fst p) (snd p) v r)]).
Proof.
  intros Hdf Hv Hb r p. unfold calculate_spreads.
  apply try_except_ok. apply (calculate_spreads_try_computed h self df v bb qb Hdf Hv Hb).
Qed.

Lemma calculate_spreads_on_snapshot (h : Host) (self : Strategy) (v r : Q) :
  snapshot h self v r ->
  let p := skewed_spreads (min_spread self) v r in
  calculate_spreads h self =
  (Ok p, self, [Log INFO (MsgCalculated (fst p) (snd p) v r)]).
Proof.
  intros (df & bb & qb & Hdf & Hv & Hb & ->).
  apply (calculate_spreads_computed h self df v bb qb Hdf Hv Hb).
Qed.

(** An exception in the [try] block. *)
Lemma calculate_spreads_caught (h : Host) (self : Strategy) (e : exn) :
  returned (calculate_spreads_try h self) = Raise e ->
  calculate_spreads h self =
  (Ok (bid_spread self, ask_spread self), self,
   trace (calculate_spreads_try h self) ++ [Log ERROR (MsgErrorSpreads e)]).
Proof.
  intros He. unfold calculate_spreads, try_except.
  pose proof (calculate_spreads_try_read_only h self) as Hf.
  unfold returned, final, trace in *.
  destruct (calculate_spreads_try h self) as [[r s'] tr]. simpl in *. subst. reflexivity.
Qed.

(** [calculate_spreads] always returns a pair. *)
Lemma calculate_spreads_never_raises (h : Host) : never_raises (calculate_spreads h).
Proof.
  intros self. unfold calculate_spreads, try_except, returned.
  destruct (calculate_spreads_try h self) as [[[p | e] s'] tr].
  - exists p. reflexivity.
  - exists (bid_spread s', ask_spread s'). reflexivity.
Qed.

(** ** Sample snapshots *)

Ltac supply_balances :=
  unfold reads_balances;
  eexists; eexists; eexists; eexists; eexists;
  repeat split; reflexivity.

Lemma sample_host_snapshot :
  snapshot sample_host AdaptiveMarketMaker 0.002 (inventory_ratio_of 7 (0.01 * 300)).
Proof.
  exists {| index_len := 2;
            columns := [("close"%string, [1; 2]); ("NATR_30"%string, [0.001; 0.002])] |}.
  exists 7, (0.01 * 300).
  split; [split; reflexivity |].
  split; [left; split; [reflexivity | exists [0.001; 0.002]; split; reflexivity] |].
  split; [supply_balances | reflexivity].
Defined.

Lemma host_with_balances_snapshot (base quote : Q) :
  snapshot (host_with_balances base quote) AdaptiveMarketMaker 0.002
           (inventory_ratio_of base (1 * quote)).
Proof.
  exists {| index_len := 2;
            columns := [("close"%string, [1; 2]); ("NATR_30"%string, [0.001; 0.002])] |}.
  exists base, (1 * quote).
  split; [split; reflexivity |].
  split; [left; split; [reflexivity | exists [0.001; 0.002]; split; reflexivity] |].
  split; [supply_balances | reflexivity].
Defined.

(** ** The spread calculator *)

(** C1.  On a market snapshot with volatility [v] and inventory ratio [r],
    [calculate_spreads] returns exactly the pair of the specification's
    reference algorithm for [self.min_spread], [v] and [r] (base spread
    [max(min_spread, v * 5)], deviation [r - 0.5], bid tightened and ask
    widened by [|deviation| * 0.5] when the deviation is positive, the
    mirror image otherwise); and when [r] is exactly 0.5 both spreads equal
    [max(min_spread, v * 5)].  The equalities need no bound on [v], [r] or
    the minimum spread, so they hold in particular for [v >= 0],
    [0 <= r <= 1] and a positive minimum spread. *)
Theorem calculate_spreads_is_reference (h : Host) (self : Strategy) (v r : Q) :
  snapshot h self v r ->
  exists b a,
    returned (calculate_spreads h self) = Ok (b, a) /\
    (b, a) = reference_spreads (min_spread self) v r /\
    (r == 0.5 ->
     b == a /\ b == Qmax (min_spread self) (v * 5) /\ a == Qmax (min_spread self) (v * 5)).
Proof.
  intros Hs.
  pose proof (calculate_spreads_on_snapshot h self v r Hs) as Hrun. cbv zeta in Hrun.
  destruct (skewed_spreads (min_spread self) v r) as [b a] eqn:E.
  exists b, a. split; [rewrite Hrun; reflexivity |].
  split; [rewrite <- E; apply skewed_spreads_reference |].
  intros Hr.
  destruct (skewed_spreads_at_half (min_spread self) v r Hr) as [Hb Ha].
  rewrite E in Hb, Ha. cbn [fst snd] in Hb, Ha.
  rewrite <- py_max_Qmax. rewrite Hb, Ha. repeat split; reflexivity.
Qed.

Lemma calculate_spreads_is_reference_witness :
  snapshot (host_with_balances 5 5) AdaptiveMarketMaker 0.002 (inventory_ratio_of 5 (1 * 5)) /\
  exists b a,
    returned (calculate_spreads (host_with_balances 5 5) AdaptiveMarketMaker) = Ok (b, a) /\
    (b, a) = reference_spreads (min_spread AdaptiveMarketMaker) 0.002
                               (inventory_ratio_of 5 (1 * 5)) /\
    (inventory_ratio_of 5 (1 * 5) == 0.5 ->
     b == a /\ b == Qmax (min_spread AdaptiveMarketMaker) (0.002 * 5)
     /\ a == Qmax (min_spread AdaptiveMarketMaker) (0.002 * 5)).
Proof.
  split.
  - exact (host_with_balances_snapshot 5 5).
  - apply (calculate_spreads_is_reference (host_with_balances 5 5) AdaptiveMarketMaker 0.002
             (inventory_ratio_of 5 (1 * 5))).
    exact (host_with_balances_snapshot 5 5).
Defined.

(** C2.  On a market snapshot (the path that does not fall back), both
    spreads [calculate_spreads] returns are at least [self.min_spread];
    this holds for every volatility and inventory ratio, so in particular
    for [v >= 0] and [0 <= r <= 1]. *)
Theorem calculate_spreads_at_least_min_spread (h : Host) (self : Strategy) (v r : Q) :
  snapshot h self v r ->
  exists b a,
    returned (calculate_spreads h self) = Ok (b, a) /\
    min_spread self <= b /\ min_spread self <= a.
Proof.
  intros Hs.
  pose proof (calculate_spreads_on_snapshot h self v r Hs) as Hrun. cbv zeta in Hrun.
  pose proof (skewed_spreads_floored (min_spread self) v r) as [Hb Ha].
  destruct (skewed_spreads (min_spread self) v r) as [b a].
  exists b, a. rewrite Hrun. repeat split; assumption.
Qed.

Lemma calculate_spreads_at_least_min_spread_witness :
  snapshot sample_host AdaptiveMarketMaker 0.002 (inventory_ratio_of 7 (0.01 * 300)) /\
  exists b a,
    returned (calculate_spreads sample_host AdaptiveMarketMaker) = Ok (b, a) /\
    min_spread AdaptiveMarketMaker <= b /\ min_spread AdaptiveMarketMaker <= a.
Proof.
  split.
  - exact sample_host_snapshot.
  - apply (calculate_spreads_at_least_min_spread sample_host AdaptiveMarketMaker 0.002
             (inventory_ratio_of 7 (0.01 * 300))).
    exact sample_host_snapshot.
Defined.

(** C3.  When the candle frame is empty, or when anything in the [try]
    block raises (a feed, indicator, connector, balance or price read that
    fails), [calculate_spreads] does not raise: it returns the configured
    pair [(self.bid_spread, self.ask_spread)] and leaves the object as it
    was. *)
Theorem calculate_spreads_falls_back (h : Host) (self : Strategy) :
  (exists df, returned (get_candles_with_features h self) = Ok df /\ df_empty df = true)
  \/ (exists e, returned (calculate_spreads_try h self) = Raise e) ->
  returned (calculate_spreads h self) = Ok (bid_spread self, ask_spread self) /\
  final (calculate_spreads h self) = self.
Proof.
  intros [(df & Hdf & Hempty) | (e & He)].
  - rewrite (calculate_spreads_no_candles h self df Hdf Hempty). split; reflexivity.
  - rewrite (calculate_spreads_caught h self e He). split; reflexivity.
Qed.

Lemma calculate_spreads_falls_back_witness :
  ((exists df, returned (get_candles_with_features no_book_host AdaptiveMarketMaker) = Ok df
               /\ df_empty df = true)
   \/ (exists e, returned (calculate_spreads_try no_book_host AdaptiveMarketMaker) = Raise e)) /\
  returned (calculate_spreads no_book_host AdaptiveMarketMaker) = Ok (0.001, 0.001) /\
  final (calculate_spreads no_book_host AdaptiveMarketMaker) = AdaptiveMarketMaker.
Proof.
  assert (H : (exists df, returned (get_candles_with_features no_book_host AdaptiveMarketMaker)
                          = Ok df /\ df_empty df = true)
              \/ (exists e, returned (calculate_spreads_try no_book_host AdaptiveMarketMaker)
                            = Raise e)).
  { right. exists (HostError "No order book exists for SOL-USDT"). reflexivity. }
  split.
  - exact H.
  - exact (calculate_spreads_falls_back no_book_host AdaptiveMarketMaker H).
Defined.

(** ** Quote construction *)

Lemma calculate_spreads_run (h : Host) (self : Strategy) :
  calculate_spreads h self =
  (returned (calculate_spreads h self), self, trace (calculate_spreads h self)).
Proof.
  pose proof (calculate_spreads_read_only h self) as Hf.
  unfold returned, final, trace in *.
  destruct (calculate_spreads h self) as [[r s'] tr]. simpl in *. subst. reflexivity.
Qed.

(** C4.  With reference price [P], spreads [(b, a)] from
    [calculate_spreads], best bid [B] and best ask [A], [create_proposal]
    returns a buy order priced at [min(P * (1 - b), B)] and a sell order
    priced at [max(P * (1 + a), A)]: the buy price is at most the best bid
    and the sell price at least the best ask. *)
Theorem create_proposal_quotes
        (h : Host) (self : Strategy) (conn : Connector) (P b a B A : Q) :
  lookup (exchange self) (connectors h) = Ok conn ->
  get_price_by_type conn (trading_pair self) (price_source self) = Ok P ->
  returned (calculate_spreads h self) = Ok (b, a) ->
  get_price conn (trading_pair self) false = Ok B ->
  get_price conn (trading_pair self) true = Ok A ->
  exists buy_order sell_order,
    returned (create_proposal h self) = Ok [buy_order; sell_order] /\
    order_side buy_order = BUY /\ order_side sell_order = SELL /\
    price buy_order = Qmin (P * (1 - b)) B /\
    price sell_order = Qmax (P * (1 + a)) A /\
    price buy_order <= B /\ A <= price sell_order.
Proof.
  intros Hc HP Hs HB HA.
  unfold create_proposal, bind, attr, call, ret, log_with_clock, emit, returned.
  cbn [fst snd]. rewrite Hc, HP.
  rewrite calculate_spreads_run, Hs, HB, HA. cbn [fst snd].
  eexists. eexists. split; [reflexivity |].
  cbn [order_side price].
  rewrite <- py_min_Qmin, <- py_max_Qmax.
  repeat split; [apply py_min_upper | apply py_max_upper].
Qed.

Lemma create_proposal_quotes_witness :
  exists buy_order sell_order,
    returned (create_proposal sample_host AdaptiveMarketMaker) = Ok [buy_order; sell_order] /\
    order_side buy_order = BUY /\ order_side sell_order = SELL /\
    price buy_order = Qmin (0.01 * (1 - 0.00900000)) (0.01 - 0.0001) /\
    price sell_order = Qmax (0.01 * (1 + 0.01100000)) (0.01 + 0.0001) /\
    price buy_order <= 0.01 - 0.0001 /\ 0.01 + 0.0001 <= price sell_order.
Proof.
  apply (create_proposal_quotes sample_host AdaptiveMarketMaker (paper_connector 0.01)
           0.01 0.00900000 0.01100000 (0.01 - 0.0001) (0.01 + 0.0001)); reflexivity.
Defined.

(** ** Inventory skew *)

(** C5.  For a fixed volatility and a positive minimum spread, when the
    inventory ratio grows from [r1] to [r2] at or above 0.5, the ask
    spread [calculate_spreads] returns does not decrease and the bid
    spread does not increase.  This holds whether or not the minimum
    spread floor binds, so in particular where it does not. *)
Theorem spreads_monotone_in_inventory
        (h1 h2 : Host) (self : Strategy) (v r1 r2 : Q) :
  0 <= v -> 0 < min_spread self ->
  0.5 <= r1 -> r1 <= r2 ->
  snapshot h1 self v r1 -> snapshot h2 self v r2 ->
  exists b1 a1 b2 a2,
    returned (calculate_spreads h1 self) = Ok (b1, a1) /\
    returned (calculate_spreads h2 self) = Ok (b2, a2) /\
    a1 <= a2 /\ b2 <= b1.
Proof.
  intros _ Hms Hr1 Hr12 Hs1 Hs2.
  pose proof (calculate_spreads_on_snapshot h1 self v r1 Hs1) as Hrun1.
  pose proof (calculate_spreads_on_snapshot h2 self v r2 Hs2) as Hrun2.
  cbv zeta in Hrun1, Hrun2.
  destruct (skewed_spreads_monotone (min_spread self) v r1 r2 Hms Hr1 Hr12) as [Ha Hb].
  destruct (skewed_spreads (min_spread self) v r1) as [b1 a1].
  destruct (skewed_spreads (min_spread self) v r2) as [b2 a2].
  exists b1, a1, b2, a2. rewrite Hrun1, Hrun2. repeat split; assumption.
Qed.

Lemma spreads_monotone_in_inventory_witness :
  exists b1 a1 b2 a2,
    returned (calculate_spreads (host_with_balances 6 4) AdaptiveMarketMaker) = Ok (b1, a1) /\
    returned (calculate_spreads (host_with_balances 8 2) AdaptiveMarketMaker) = Ok (b2, a2) /\
    a1 <= a2 /\ b2 <= b1.
Proof.
  apply (spreads_monotone_in_inventory
           (host_with_balances 6 4) (host_with_balances 8 2) AdaptiveMarketMaker 0.002
           (inventory_ratio_of 6 (1 * 4)) (inventory_ratio_of 8 (1 * 2))).
  - vm_compute. discriminate.
  - reflexivity.
  - vm_compute. discriminate.
  - vm_compute. discriminate.
  - exact (host_with_balances_snapshot 6 4).
  - exact (host_with_balances_snapshot 8 2).
Defined.

(** C6.  For inventory ratios [0.5 + d] and [0.5 - d], the pairs
    [calculate_spreads] forms before it floors them at the minimum spread
    are swaps of each other (the bid of one is the ask of the other), for
    every [d] and so for every [d] in [0, 0.5]; the returned pairs are
    these floored at the minimum spread, and are swaps of each other as
    well. *)
Theorem spreads_mirror_before_floor (ms v d r_long r_short : Q) :
  r_long == 0.5 + d -> r_short == 0.5 - d ->
  pair_eq (unfloored_spreads ms v r_long) (swap (unfloored_spreads ms v r_short)) /\
  skewed_spreads ms v r_long = floor_at ms (unfloored_spreads ms v r_long) /\
  skewed_spreads ms v r_short = floor_at ms (unfloored_spreads ms v r_short) /\
  pair_eq (skewed_spreads ms v r_long) (swap (skewed_spreads ms v r_short)).
Proof.
  intros Hl Hs.
  assert (Hm : pair_eq (unfloored_spreads ms v r_long)
                       (swap (unfloored_spreads ms v r_short))).
  { apply unfloored_spreads_mirror. lra. }
  split; [exact Hm |].
  split; [apply skewed_spreads_floor |].
  split; [apply skewed_spreads_floor |].
  rewrite !skewed_spreads_floor, <- floor_at_swap.
  apply floor_at_compat. exact Hm.
Qed.

Lemma spreads_mirror_before_floor_witness :
  pair_eq (unfloored_spreads 0.001 0.002 0.7) (swap (unfloored_spreads 0.001 0.002 0.3)) /\
  skewed_spreads 0.001 0.002 0.7 = floor_at 0.001 (unfloored_spreads 0.001 0.002 0.7) /\
  skewed_spreads 0.001 0.002 0.3 = floor_at 0.001 (unfloored_spreads 0.001 0.002 0.3) /\
  pair_eq (skewed_spreads 0.001 0.002 0.7) (swap (skewed_spreads 0.001 0.002 0.3)).
Proof.
  apply (spreads_mirror_before_floor 0.001 0.002 0.2 0.7 0.3); reflexivity.
Defined.

(** ** The risk-aversion parameter *)

Lemma ignores_ret {A} (a : A) : ignores_risk_aversion (ret a).
Proof. intros ra self. reflexivity. Qed.

Lemma ignores_call {A} (r : result A) : ignores_risk_aversion (call r).
Proof. intros ra self. reflexivity. Qed.

Lemma ignores_emit (ev : Event) : ignores_risk_aversion (emit ev).
Proof. intros ra self. reflexivity. Qed.

Lemma ignores_attr {A} (f : Strategy -> A) :
  (forall ra self, f (set_risk_aversion ra self) = f self) ->
  ignores_risk_aversion (attr f).
Proof. intros Hf ra self. unfold attr. rewrite Hf. reflexivity. Qed.

Lemma ignores_bind {A B} (m : M A) (k : A -> M B) :
  ignores_risk_aversion m -> (forall a, ignores_risk_aversion (k a)) ->
  ignores_risk_aversion (bind m k).
Proof.
  intros Hm Hk ra self. unfold bind. rewrite Hm.
  unfold returned, final, trace.
  destruct (m self) as [[[a | e] s'] tr]; cbn [fst snd]; [| reflexivity].
  rewrite Hk. unfold returned, final, trace.
  destruct (k a s') as [[r s''] tr']. reflexivity.
Qed.

Lemma ignores_try_except {A} (body : M A) (handler : exn -> M A) :
  ignores_risk_aversion body -> (forall e, ignores_risk_aversion (handler e)) ->
  ignores_risk_aversion (try_except body handler).
Proof.
  intros Hm Hk ra self. unfold try_except. rewrite Hm.
  unfold returned, final, trace.
  destruct (body self) as [[[a | e] s'] tr]; cbn [fst snd]; [reflexivity |].
  rewrite Hk. unfold returned, final, trace.
  destruct (handler e s') as [[r s''] tr']. reflexivity.
Qed.

Ltac ignores :=
  repeat first
    [ progress intros
    | apply ignores_bind | apply ignores_try_except
    | apply ignores_ret | apply ignores_call | apply ignores_emit
    | apply ignores_attr; reflexivity
    | match goal with
      | |- ignores_risk_aversion (match ?x with _ => _ end) => destruct x
      | |- ignores_risk_aversion (let _ := _ in _) => cbv zeta
      end ].

Lemma calculate_spreads_ignores_risk_aversion (h : Host) :
  ignores_risk_aversion (calculate_spreads h).
Proof.
  unfold calculate_spreads, calculate_spreads_try, calculate_spreads_except,
    get_candles_with_features, log_with_clock.
  ignores.
Qed.

(** C7.  Two runs of [calculate_spreads] on objects that differ only in
    [risk_aversion], with the same host answers (candles, balances,
    prices), return the same pair and log the same lines. *)
Theorem risk_aversion_is_dead (h : Host) (self : Strategy) (ra1 ra2 : Q) :
  returned (calculate_spreads h (set_risk_aversion ra1 self)) =
  returned (calculate_spreads h (set_risk_aversion ra2 self)) /\
  trace (calculate_spreads h (set_risk_aversion ra1 self)) =
  trace (calculate_spreads h (set_risk_aversion ra2 self)).
Proof.
  rewrite !calculate_spreads_ignores_risk_aversion. split; reflexivity.
Qed.

(** ** A frame without the NATR column *)

Lemma skewed_spreads_fixed_volatility (ms r : Q) :
  0 <= r -> r <= 1 ->
  0.00375 <= fst (skewed_spreads ms 0.001 r) /\
  0.00375 <= snd (skewed_spreads ms 0.001 r).
Proof.
  intros H0 H1.
  rewrite skewed_spreads_floor. unfold floor_at. cbn [fst snd].
  pose proof (py_max_upper ms (0.001 * 5)) as Hb.
  pose proof (py_max_upper ms (fst (unfloored_spreads ms 0.001 r))) as Hf.
  pose proof (py_max_upper ms (snd (unfloored_spreads ms 0.001 r))) as Hs.
  destruct (Qlt_le_dec r 0.5) as [Hr | Hr].
  - destruct (unfloored_spreads_short ms 0.001 r) as [A1 A2]; [lra |].
    cbn [fst snd] in A1, A2.
    set (base := py_max ms (0.001 * 5)) in *. split; nra.
  - destruct (unfloored_spreads_long ms 0.001 r) as [A1 A2]; [lra |].
    cbn [fst snd] in A1, A2.
    set (base := py_max ms (0.001 * 5)) in *. split; nra.
Qed.

(** C8, as stated, fails: with a non-empty frame that lacks the NATR
    column and a connector whose price read raises, [calculate_spreads]
    returns the configured default pair. *)
Lemma missing_natr_can_fall_back :
  ~ (forall (h : Host) (self : Strategy) (df : DataFrame),
       candles_ready h self df ->
       has_column (natr_label (candles_length self)) df = false ->
       returned (calculate_spreads h self) <> Ok (bid_spread self, ask_spread self)).
Proof.
  intros H.
  apply (H no_book_host AdaptiveMarketMaker sample_candles).
  - split; reflexivity.
  - reflexivity.
  - reflexivity.
Qed.

(** C8, amended.  For a non-empty frame that lacks the NATR column,
    provided the balance and price reads succeed, [calculate_spreads]
    does not take the fallback: it substitutes a volatility of 0.001 and
    returns the base-spread and inventory-skew computation on that value
    (logging it as calculated).  With an inventory ratio in [0, 1] both
    returned spreads are at least 0.00375, so they differ from the class
    defaults of 0.001. *)
Theorem missing_natr_uses_fixed_volatility
        (h : Host) (self : Strategy) (df : DataFrame) (bb qb : Q) :
  candles_ready h self df ->
  has_column (natr_label (candles_length self)) df = false ->
  reads_balances h self bb qb ->
  let r := inventory_ratio_of bb qb in
  let p := skewed_spreads (min_spread self) 0.001 r in
  calculate_spreads h self =
    (Ok p, self, [Log INFO (MsgCalculated (fst p) (snd p) 0.001 r)]) /\
  (0 <= r -> r <= 1 -> 0.00375 <= fst p /\ 0.00375 <= snd p).
Proof.
  intros Hdf Hcol Hb r p. split.
  - apply (calculate_spreads_computed h self df 0.001 bb qb Hdf); [| exact Hb].
    right. split; [exact Hcol | reflexivity].
  - intros H0 H1. apply skewed_spreads_fixed_volatility; assumption.
Qed.

Lemma missing_natr_uses_fixed_volatility_witness :
  calculate_spreads short_history_host AdaptiveMarketMaker =
    (Ok (0.00450000, 0.00550000), AdaptiveMarketMaker,
     [Log INFO (MsgCalculated 0.00450000 0.00550000 0.001 (inventory_ratio_of 7 (0.01 * 300)))]) /\
  (0 <= inventory_ratio_of 7 (0.01 * 300) -> inventory_ratio_of 7 (0.01 * 300) <= 1 ->
   0.00375 <= 0.00450000 /\ 0.00375 <= 0.00550000).
Proof.
  apply (missing_natr_uses_fixed_volatility short_history_host AdaptiveMarketMaker
           sample_candles 7 (0.01 * 300)).
  - split; reflexivity.
  - reflexivity.
  - supply_balances.
Defined.

(** ** The refresh timer *)

Lemma refresh_outcome_bind {A} (h : Host) (m : M A) (k : A -> M unit) :
  read_only m -> (forall a, refresh_outcome h (k a)) -> refresh_outcome h (bind m k).
Proof.
  intros Hm Hk self. unfold bind.
  specialize (Hm self). unfold returned, final in *.
  destruct (m self) as [[[a | e] s'] tr]; cbn [fst snd] in *; subst s'.
  - specialize (Hk a self). unfold returned, final in Hk.
    destruct (k a self) as [[r s''] tr']. cbn [fst snd] in *. exact Hk.
  - right. exists e. split; reflexivity.
Qed.

Lemma refresh_outcome_assign (h : Host) :
  refresh_outcome h
    (ort <- attr order_refresh_time ;;
     assign (set_create_timestamp (ort + current_timestamp h))).
Proof. intros self. left. split; reflexivity. Qed.

Lemma on_tick_unfold (h : Host) (self : Strategy) :
  on_tick h self =
  (if Qle_bool (create_timestamp self) (current_timestamp h) then
     log_with_clock INFO MsgTickRefreshing ;;;
     cancel_all_orders h ;;;
     proposal <- create_proposal h ;;
     proposal_adjusted <- adjust_proposal_to_budget h proposal ;;
     place_orders proposal_adjusted ;;;
     ort <- attr order_refresh_time ;;
     assign (set_create_timestamp (ort + current_timestamp h))
   else ret tt) self.
Proof.
  unfold on_tick.
  set (cycle := bind (log_with_clock INFO MsgTickRefreshing) _).
  unfold bind, attr.
  destruct (Qle_bool (create_timestamp self) (current_timestamp h)).
  - destruct (cycle self) as [[r s''] tr']. reflexivity.
  - reflexivity.
Qed.

Lemma on_tick_not_due (h : Host) (self : Strategy) :
  Qle_bool (create_timestamp self) (current_timestamp h) = false ->
  on_tick h self = (Ok tt, self, []).
Proof. intros H. rewrite on_tick_unfold, H. reflexivity. Qed.

Lemma on_tick_due (h : Host) (self : Strategy) :
  Qle_bool (create_timestamp self) (current_timestamp h) = true ->
  (returned (on_tick h self) = Ok tt /\
   final (on_tick h self) =
     set_create_timestamp (order_refresh_time self + current_timestamp h) self)
  \/ (exists e, returned (on_tick h self) = Raise e /\ final (on_tick h self) = self).
Proof.
  intros H. rewrite on_tick_unfold, H.
  generalize self. change (refresh_outcome h
    (log_with_clock INFO MsgTickRefreshing ;;;
     cancel_all_orders h ;;;
     proposal <- create_proposal h ;;
     proposal_adjusted <- adjust_proposal_to_budget h proposal ;;
     place_orders proposal_adjusted ;;;
     ort <- attr order_refresh_time ;;
     assign (set_create_timestamp (ort + current_timestamp h)))).
  apply refresh_outcome_bind; [apply read_only_log | intros _].
  apply refresh_outcome_bind; [apply cancel_all_orders_read_only | intros _].
  apply refresh_outcome_bind; [apply create_proposal_read_only | intros proposal].
  apply refresh_outcome_bind; [apply adjust_proposal_to_budget_read_only | intros adjusted].
  apply refresh_outcome_bind; [apply place_orders_read_only | intros _].
  apply refresh_outcome_assign.
Qed.

(** [on_tick] writes no attribute but [create_timestamp]. *)
Lemma on_tick_keeps_config (h : Host) (self : Strategy) :
  set_create_timestamp 0 (final (on_tick h self)) = set_create_timestamp 0 self.
Proof.
  destruct (Qle_bool (create_timestamp self) (current_timestamp h)) eqn:E.
  - destruct (on_tick_due h self E) as [[_ ->] | (e & _ & ->)]; reflexivity.
  - rewrite (on_tick_not_due h self E). reflexivity.
Qed.

Lemma reachable_class_config (self : Strategy) :
  reachable self -> set_create_timestamp 0 self = AdaptiveMarketMaker.
Proof.
  induction 1 as [| h self _ IH | h self _ IH | h self _ IH].
  - reflexivity.
  - rewrite on_tick_keeps_config. exact IH.
  - rewrite calculate_spreads_read_only. exact IH.
  - rewrite create_proposal_read_only. exact IH.
Qed.

Lemma reachable_defaults (self : Strategy) :
  reachable self ->
  bid_spread self = 0.001 /\ ask_spread self = 0.001 /\ min_spread self = 0.001.
Proof.
  intros H. apply reachable_class_config in H.
  repeat split.
  - exact (f_equal bid_spread H).
  - exact (f_equal ask_spread H).
  - exact (f_equal min_spread H).
Qed.

(** C9.  A call of [calculate_spreads] leaves every attribute of the
    object as it was (the spreads it computes are locals), among them
    [bid_spread], [ask_spread], [min_spread] and [create_timestamp].  On
    an object in any state of its life (class attributes, then calls of
    [on_tick], [create_proposal] and [calculate_spreads]) the three
    spread attributes have their class values, so the fallback, on an
    exception as on an empty frame, returns exactly (0.001, 0.001). *)
Theorem calculate_spreads_frame (h : Host) (self : Strategy) :
  final (calculate_spreads h self) = self /\
  (reachable self ->
   (bid_spread self = 0.001 /\ ask_spread self = 0.001 /\ min_spread self = 0.001) /\
   (forall e, returned (calculate_spreads_try h self) = Raise e ->
              returned (calculate_spreads h self) = Ok (0.001, 0.001)) /\
   (forall df, returned (get_candles_with_features h self) = Ok df -> df_empty df = true ->
               returned (calculate_spreads h self) = Ok (0.001, 0.001))).
Proof.
  split; [apply calculate_spreads_read_only |].
  intros Hr. destruct (reachable_defaults self Hr) as (Hb & Ha & Hm).
  split; [repeat split; assumption |].
  split.
  - intros e He. rewrite (calculate_spreads_caught h self e He).
    unfold returned. cbn [fst]. rewrite Hb, Ha. reflexivity.
  - intros df Hdf Hempty. rewrite (calculate_spreads_no_candles h self df Hdf Hempty).
    unfold returned. cbn [fst]. rewrite Hb, Ha. reflexivity.
Qed.

Lemma calculate_spreads_frame_witness :
  reachable (final (on_tick sample_host AdaptiveMarketMaker)) /\
  final (calculate_spreads no_book_host (final (on_tick sample_host AdaptiveMarketMaker))) =
    final (on_tick sample_host AdaptiveMarketMaker) /\
  returned (calculate_spreads no_book_host (final (on_tick sample_host AdaptiveMarketMaker))) =
    Ok (0.001, 0.001).
Proof.
  assert (Hr : reachable (final (on_tick sample_host AdaptiveMarketMaker))).
  { apply reach_on_tick. apply reach_class. }
  destruct (calculate_spreads_frame no_book_host
              (final (on_tick sample_host AdaptiveMarketMaker))) as [Hf Hrest].
  destruct (Hrest Hr) as (_ & Hexc & _).
  split; [exact Hr |].
  split; [exact Hf |].
  apply (Hexc (HostError "No order book exists for SOL-USDT")). reflexivity.
Defined.

Lemma on_tick_timer_advances (h : Host) (self : Strategy) :
  0 <= order_refresh_time self ->
  create_timestamp self <= create_timestamp (final (on_tick h self)) /\
  order_refresh_time (final (on_tick h self)) = order_refresh_time self.
Proof.
  intros Hort.
  destruct (Qle_bool (create_timestamp self) (current_timestamp h)) eqn:E.
  - destruct (on_tick_due h self E) as [[_ ->] | (e & _ & ->)].
    + apply Qle_bool_iff in E. cbn [create_timestamp order_refresh_time set_create_timestamp].
      split; [lra | reflexivity].
    + split; [lra | reflexivity].
  - rewrite (on_tick_not_due h self E). split; [unfold final; cbn [fst snd]; lra | reflexivity].
Qed.

Lemma run_ticks_timer_advances (hs : list Host) :
  forall (self : Strategy) (j : nat) (tj : Tick),
    0 <= order_refresh_time self ->
    nth_error (run_ticks hs self) j = Some tj ->
    create_timestamp self <= create_timestamp (before tj) /\
    order_refresh_time (before tj) = order_refresh_time self.
Proof.
  induction hs as [| h rest IH]; intros self j tj Hort Hj.
  - destruct j; discriminate.
  - destruct j as [| j'].
    + injection Hj as <-. cbn [before]. split; [lra | reflexivity].
    + cbn [run_ticks nth_error] in Hj.
      destruct (on_tick_timer_advances h self Hort) as [Hct Ho].
      destruct (IH (final (on_tick h self)) j' tj) as [Hct' Ho'].
      * rewrite Ho. exact Hort.
      * exact Hj.
      * split; [lra | congruence].
Qed.

Lemma refreshed_sets_timer (h : Host) (self : Strategy) :
  refreshed {| tick_host := h; before := self; tick_run := on_tick h self |} = true ->
  final (on_tick h self) =
    set_create_timestamp (order_refresh_time self + current_timestamp h) self.
Proof.
  unfold refreshed, due, tick_time. cbn [tick_host before tick_run].
  intros H. apply andb_prop in H as [Hdue Hok].
  destruct (on_tick_due h self Hdue) as [[_ Hf] | (e & He & _)].
  - exact Hf.
  - rewrite He in Hok. discriminate.
Qed.

Lemma run_ticks_refresh_spacing (hs : list Host) :
  forall (self : Strategy) (i j : nat) (ti tj : Tick),
    0 <= order_refresh_time self ->
    (i < j)%nat ->
    nth_error (run_ticks hs self) i = Some ti ->
    nth_error (run_ticks hs self) j = Some tj ->
    refreshed ti = true -> refreshed tj = true ->
    tick_time ti + order_refresh_time self <= tick_time tj.
Proof.
  induction hs as [| h rest IH]; intros self i j ti tj Hort Hij Hi Hj Ri Rj.
  - destruct i; discriminate.
  - destruct j as [| j']; [lia |].
    cbn [run_ticks nth_error] in Hj.
    destruct (on_tick_timer_advances h self Hort) as [_ Ho].
    destruct i as [| i'].
    + injection Hi as <-.
      pose proof (refreshed_sets_timer h self Ri) as Hset.
      destruct (run_ticks_timer_advances rest (final (on_tick h self)) j' tj) as [Hct _].
      * rewrite Ho. exact Hort.
      * exact Hj.
      * rewrite Hset in Hct. cbn [create_timestamp set_create_timestamp] in Hct.
        unfold refreshed in Rj. apply andb_prop in Rj as [Hdue _].
        unfold due in Hdue. apply Qle_bool_iff in Hdue.
        unfold tick_time at 1. cbn [tick_host]. lra.
    + cbn [run_ticks nth_error] in Hi.
      rewrite <- Ho. apply (IH (final (on_tick h self)) i' j' ti tj); try assumption.
      * rewrite Ho. exact Hort.
      * lia.
Qed.

(** C10, as stated, fails: a due cycle does not always end by setting
    [create_timestamp], and refreshes can follow each other within one
    [order_refresh_time] interval.  With two active orders and a
    connector whose price read raises, [create_proposal] raises after the
    cancels: ticks at times 100, 101 and 102 are all due, each cancels
    both orders, and the timer stays at 0. *)
Lemma due_cycle_can_leave_timer_unset :
  ~ (forall (h : Host) (self : Strategy),
       create_timestamp self <= current_timestamp h ->
       create_timestamp (final (on_tick h self))
       == current_timestamp h + order_refresh_time self) /\
  map tick_summary
      (run_ticks [stale_book_host_at 100; stale_book_host_at 101; stale_book_host_at 102]
                 AdaptiveMarketMaker) =
  [ (true, [CancelOrder "binance_paper_trade" "SOL-USDT" "buy-1";
            CancelOrder "binance_paper_trade" "SOL-USDT" "sell-1"], 0);
    (true, [CancelOrder "binance_paper_trade" "SOL-USDT" "buy-1";
            CancelOrder "binance_paper_trade" "SOL-USDT" "sell-1"], 0);
    (true, [CancelOrder "binance_paper_trade" "SOL-USDT" "buy-1";
            CancelOrder "binance_paper_trade" "SOL-USDT" "sell-1"], 0) ].
Proof.
  split.
  - intros H.
    specialize (H (stale_book_host_at 100) AdaptiveMarketMaker).
    assert (Hdue : create_timestamp AdaptiveMarketMaker
                   <= current_timestamp (stale_book_host_at 100))
      by (vm_compute; discriminate).
    specialize (H Hdue). vm_compute in H. discriminate H.
  - reflexivity.
Qed.

(** C10, amended.  [on_tick] enters the cancel / recompute / place cycle
    only when [create_timestamp <= current_timestamp]: while the current
    time is before [create_timestamp] it emits nothing (no order is
    cancelled or placed) and leaves the object as it was, so any event of
    a tick shows that the tick was due.  A cycle that runs to its end sets
    [create_timestamp] to [order_refresh_time + current_timestamp]; a
    cycle in which a host call raises is abandoned with the object, and
    so the timer, unchanged.  Hence, over any succession of ticks, two
    completed refreshes are at least [order_refresh_time] apart: at most
    one per interval. *)
Theorem on_tick_refresh_gate (h : Host) (self : Strategy) (hs : list Host) :
  (current_timestamp h < create_timestamp self -> on_tick h self = (Ok tt, self, [])) /\
  (forall ev, In ev (trace (on_tick h self)) ->
              create_timestamp self <= current_timestamp h) /\
  (create_timestamp self <= current_timestamp h ->
   returned (on_tick h self) = Ok tt ->
   final (on_tick h self) =
     set_create_timestamp (order_refresh_time self + current_timestamp h) self) /\
  (forall e, returned (on_tick h self) = Raise e ->
             create_timestamp self <= current_timestamp h /\
             final (on_tick h self) = self) /\
  (0 <= order_refresh_time self ->
   forall i j ti tj,
     (i < j)%nat ->
     nth_error (run_ticks hs self) i = Some ti ->
     nth_error (run_ticks hs self) j = Some tj ->
     refreshed ti = true -> refreshed tj = true ->
     tick_time ti + order_refresh_time self <= tick_time tj).
Proof.
  assert (Hnot : current_timestamp h < create_timestamp self ->
                 on_tick h self = (Ok tt, self, [])).
  { intros Hlt. apply on_tick_not_due.
    destruct (Qle_bool (create_timestamp self) (current_timestamp h)) eqn:E;
      [apply Qle_bool_iff in E; lra | reflexivity]. }
  split; [exact Hnot |]. split; [| split; [| split]].
  - intros ev Hev.
    destruct (Qlt_le_dec (current_timestamp h) (create_timestamp self)) as [Hlt | Hle];
      [| exact Hle].
    rewrite (Hnot Hlt) in Hev. destruct Hev.
  - intros Hle Hok. apply Qle_bool_iff in Hle.
    destruct (on_tick_due h self Hle) as [[_ Hf] | (e & He & _)]; [exact Hf |].
    rewrite He in Hok. discriminate.
  - intros e He.
    destruct (Qlt_le_dec (current_timestamp h) (create_timestamp self)) as [Hlt | Hle].
    + rewrite (Hnot Hlt) in He. discriminate He.
    + split; [exact Hle |]. pose proof Hle as Hb. apply Qle_bool_iff in Hb.
      destruct (on_tick_due h self Hb) as [[Hok _] | (e' & _ & Hf)]; [| exact Hf].
      rewrite Hok in He. discriminate He.
  - intros Hort i j ti tj. apply run_ticks_refresh_spacing. exact Hort.
Qed.

Lemma on_tick_refresh_gate_witness :
  on_tick (sample_host_at 105) (final (on_tick (sample_host_at 100) AdaptiveMarketMaker)) =
    (Ok tt, final (on_tick (sample_host_at 100) AdaptiveMarketMaker), []) /\
  final (on_tick (sample_host_at 100) AdaptiveMarketMaker) =
    set_create_timestamp (15 + 100) AdaptiveMarketMaker /\
  final (on_tick (stale_book_host_at 100) AdaptiveMarketMaker) = AdaptiveMarketMaker /\
  100 + 15 <= 120.
Proof.
  destruct (on_tick_refresh_gate (sample_host_at 105)
              (final (on_tick (sample_host_at 100) AdaptiveMarketMaker)) [])
    as (Hnot & _).
  destruct (on_tick_refresh_gate (stale_book_host_at 100) AdaptiveMarketMaker [])
    as (_ & _ & _ & Habort & _).
  destruct (on_tick_refresh_gate (sample_host_at 100) AdaptiveMarketMaker
              [sample_host_at 100; sample_host_at 105; sample_host_at 120])
    as (_ & _ & Hset & _ & Hspacing).
  split; [apply Hnot; reflexivity |].
  split; [apply Hset; [vm_compute; discriminate | reflexivity] |].
  split; [apply (Habort (HostError "No order book exists for SOL-USDT")); reflexivity |].
  assert (Hort : 0 <= order_refresh_time AdaptiveMarketMaker) by (vm_compute; discriminate).
  exact (Hspacing Hort 0%nat 2%nat _ _ (le_S _ _ (le_n 1)) eq_refl eq_refl
                  eq_refl eq_refl).
Defined.

(* ================================================================== *)
(** * Further properties of the code *)

(** ** The inventory ratio and the shape of the spreads *)

Lemma snapshot_returns (h : Host) (self : Strategy) (v r : Q) :
  snapshot h self v r ->
  returned (calculate_spreads h self) = Ok (skewed_spreads (min_spread self) v r).
Proof.
  intros Hs. rewrite (calculate_spreads_on_snapshot h self v r Hs). reflexivity.
Qed.

(** X1.  The inventory ratio [calculate_spreads] derives from two
    non-negative balance values lies in [0, 1]; and whenever their sum
    is not positive the ratio is the neutral 0.5. *)
Theorem inventory_ratio_in_unit_interval (base_balance quote_balance : Q) :
  (0 <= base_balance -> 0 <= quote_balance ->
   0 <= inventory_ratio_of base_balance quote_balance /\
   inventory_ratio_of base_balance quote_balance <= 1) /\
  (base_balance + quote_balance <= 0 ->
   inventory_ratio_of base_balance quote_balance = 0.5).
Proof.
  unfold inventory_ratio_of. cbv zeta.
  destruct (Qlt_bool 0 (base_balance + quote_balance)) eqn:E.
  - apply Qlt_bool_iff in E. split.
    + intros Hb Hq. split.
      * apply Qle_shift_div_l; [exact E | lra].
      * apply Qle_shift_div_r; [exact E | lra].
    + intros Hle. lra.
  - split; [intros _ _; split; lra | reflexivity].
Qed.

Lemma inventory_ratio_in_unit_interval_witness :
  (0 <= inventory_ratio_of 7 3 /\ inventory_ratio_of 7 3 <= 1) /\
  inventory_ratio_of 0 0 = 0.5.
Proof.
  destruct (inventory_ratio_in_unit_interval 7 3) as [Hin _].
  destruct (inventory_ratio_in_unit_interval 0 0) as [_ Hzero].
  split.
  - apply Hin; vm_compute; discriminate.
  - apply Hzero. vm_compute. discriminate.
Defined.

Lemma base_spread_lower (ms v : Q) : ms <= py_max ms (v * 5) /\ v * 5 <= py_max ms (v * 5).
Proof. split; [apply py_max_lower | apply py_max_upper]. Qed.

(** The pair before flooring, whatever the branch: the base spread
    scaled by [1 -/+ (r - 0.5) * 0.5]. *)
Lemma unfloored_spreads_value (ms v r : Q) :
  pair_eq (unfloored_spreads ms v r)
          (py_max ms (v * 5) * (1 - (r - 0.5) * 0.5),
           py_max ms (v * 5) * (1 + (r - 0.5) * 0.5)).
Proof.
  destruct (Qlt_le_dec r 0.5) as [Hr | Hr].
  - destruct (unfloored_spreads_short ms v r) as [A1 A2]; [lra |].
    unfold pair_eq in *. cbn [fst snd] in *. rewrite A1, A2. split; lra.
  - apply unfloored_spreads_long. exact Hr.
Qed.

(** X2.  With a positive minimum spread, the skew has a direction: at or
    above the target ratio 0.5 the returned bid spread is at most the ask
    spread, at or below it the ask spread is at most the bid spread. *)
Theorem skew_direction (h : Host) (self : Strategy) (v r : Q) :
  snapshot h self v r ->
  0 < min_spread self ->
  exists b a,
    returned (calculate_spreads h self) = Ok (b, a) /\
    (0.5 <= r -> b <= a) /\ (r <= 0.5 -> a <= b).
Proof.
  intros Hs Hms. rewrite (snapshot_returns h self v r Hs).
  rewrite skewed_spreads_floor. unfold floor_at.
  eexists. eexists. split; [reflexivity |].
  destruct (unfloored_spreads_value (min_spread self) v r) as [A1 A2].
  cbn [fst snd] in A1, A2.
  destruct (base_spread_lower (min_spread self) v) as [Hb _].
  set (base := py_max (min_spread self) (v * 5)) in *.
  split; intros Hr; apply py_max_monotone; rewrite A1, A2; nra.
Qed.

Lemma skew_direction_witness :
  exists b a,
    returned (calculate_spreads (host_with_balances 8 2) AdaptiveMarketMaker) = Ok (b, a) /\
    (0.5 <= inventory_ratio_of 8 (1 * 2) -> b <= a) /\
    (inventory_ratio_of 8 (1 * 2) <= 0.5 -> a <= b).
Proof.
  apply (skew_direction (host_with_balances 8 2) AdaptiveMarketMaker 0.002
           (inventory_ratio_of 8 (1 * 2))).
  - exact (host_with_balances_snapshot 8 2).
  - reflexivity.
Defined.

(** X3.  For an inventory ratio in [0, 1] and a positive minimum spread,
    both returned spreads stay within a quarter of the base spread
    [max(min_spread, volatility * 5)]: between 0.75 and 1.25 times it. *)
Theorem spreads_within_quarter_of_base (h : Host) (self : Strategy) (v r : Q) :
  snapshot h self v r ->
  0 < min_spread self -> 0 <= r -> r <= 1 ->
  exists b a,
    returned (calculate_spreads h self) = Ok (b, a) /\
    0.75 * Qmax (min_spread self) (v * 5) <= b /\
    b <= 1.25 * Qmax (min_spread self) (v * 5) /\
    0.75 * Qmax (min_spread self) (v * 5) <= a /\
    a <= 1.25 * Qmax (min_spread self) (v * 5).
Proof.
  intros Hs Hms H0 H1. rewrite (snapshot_returns h self v r Hs).
  rewrite skewed_spreads_floor. unfold floor_at.
  eexists. eexists. split; [reflexivity |].
  rewrite <- py_max_Qmax.
  destruct (unfloored_spreads_value (min_spread self) v r) as [A1 A2].
  cbn [fst snd] in A1, A2.
  destruct (base_spread_lower (min_spread self) v) as [Hb _].
  set (base := py_max (min_spread self) (v * 5)) in *.
  set (ub := fst (unfloored_spreads (min_spread self) v r)) in *.
  set (ua := snd (unfloored_spreads (min_spread self) v r)) in *.
  pose proof (py_max_upper (min_spread self) ub) as Hub.
  pose proof (py_max_upper (min_spread self) ua) as Hua.
  repeat split.
  - nra.
  - destruct (py_max_cases (min_spread self) ub) as [[_ ->] | [_ ->]]; nra.
  - nra.
  - destruct (py_max_cases (min_spread self) ua) as [[_ ->] | [_ ->]]; nra.
Qed.

Lemma spreads_within_quarter_of_base_witness :
  exists b a,
    returned (calculate_spreads (host_with_balances 8 2) AdaptiveMarketMaker) = Ok (b, a) /\
    0.75 * Qmax (min_spread AdaptiveMarketMaker) (0.002 * 5) <= b /\
    b <= 1.25 * Qmax (min_spread AdaptiveMarketMaker) (0.002 * 5) /\
    0.75 * Qmax (min_spread AdaptiveMarketMaker) (0.002 * 5) <= a /\
    a <= 1.25 * Qmax (min_spread AdaptiveMarketMaker) (0.002 * 5).
Proof.
  apply (spreads_within_quarter_of_base (host_with_balances 8 2) AdaptiveMarketMaker 0.002
           (inventory_ratio_of 8 (1 * 2))).
  - exact (host_with_balances_snapshot 8 2).
  - reflexivity.
  - vm_compute. discriminate.
  - vm_compute. discriminate.
Defined.

(** X4.  When three quarters of five times the volatility are at least
    the positive minimum spread and the inventory ratio is in [0, 1], the
    floor never binds: both products [calculate_spreads] forms in the
    skew branch are at least the minimum spread, and the returned pair is
    that pair of products. *)
Theorem floor_never_binds_in_lively_market (h : Host) (self : Strategy) (v r : Q) :
  snapshot h self v r ->
  0 < min_spread self -> min_spread self <= 0.75 * (v * 5) ->
  0 <= r -> r <= 1 ->
  exists b a,
    returned (calculate_spreads h self) = Ok (b, a) /\
    min_spread self <= fst (unfloored_spreads (min_spread self) v r) /\
    min_spread self <= snd (unfloored_spreads (min_spread self) v r) /\
    pair_eq (b, a) (unfloored_spreads (min_spread self) v r).
Proof.
  intros Hs Hms Hv H0 H1. rewrite (snapshot_returns h self v r Hs).
  rewrite skewed_spreads_floor. unfold floor_at.
  eexists. eexists. split; [reflexivity |].
  destruct (unfloored_spreads_value (min_spread self) v r) as [A1 A2].
  cbn [fst snd] in A1, A2.
  destruct (base_spread_lower (min_spread self) v) as [_ Hbase].
  set (base := py_max (min_spread self) (v * 5)) in *.
  assert (Lb : min_spread self <= fst (unfloored_spreads (min_spread self) v r)) by nra.
  assert (La : min_spread self <= snd (unfloored_spreads (min_spread self) v r)) by nra.
  split; [exact Lb |]. split; [exact La |].
  unfold pair_eq. cbn [fst snd]. split.
  - destruct (py_max_cases (min_spread self) (fst (unfloored_spreads (min_spread self) v r)))
      as [[_ E] | [Hle E]]; rewrite E; [reflexivity | lra].
  - destruct (py_max_cases (min_spread self) (snd (unfloored_spreads (min_spread self) v r)))
      as [[_ E] | [Hle E]]; rewrite E; [reflexivity | lra].
Qed.

Lemma floor_never_binds_in_lively_market_witness :
  exists b a,
    returned (calculate_spreads (host_with_balances 7 3) AdaptiveMarketMaker) = Ok (b, a) /\
    min_spread AdaptiveMarketMaker
      <= fst (unfloored_spreads (min_spread AdaptiveMarketMaker) 0.002
                                (inventory_ratio_of 7 (1 * 3))) /\
    min_spread AdaptiveMarketMaker
      <= snd (unfloored_spreads (min_spread AdaptiveMarketMaker) 0.002
                                (inventory_ratio_of 7 (1 * 3))) /\
    pair_eq (b, a) (unfloored_spreads (min_spread AdaptiveMarketMaker) 0.002
                                      (inventory_ratio_of 7 (1 * 3))).
Proof.
  apply (floor_never_binds_in_lively_market (host_with_balances 7 3) AdaptiveMarketMaker
           0.002 (inventory_ratio_of 7 (1 * 3))).
  - exact (host_with_balances_snapshot 7 3).
  - reflexivity.
  - vm_compute. discriminate.
  - vm_compute. discriminate.
  - vm_compute. discriminate.
Defined.

(** X5.  In a quiet market (five times the volatility at most the
    positive minimum spread) the base spread is the minimum spread, so the
    skew can only widen: the side it would tighten is returned as exactly
    the minimum spread, the other side as the minimum spread scaled up by
    half the distance of the inventory ratio from 0.5. *)
Theorem quiet_market_only_widens (h : Host) (self : Strategy) (v r : Q) :
  snapshot h self v r ->
  0 < min_spread self -> v * 5 <= min_spread self ->
  exists b a,
    returned (calculate_spreads h self) = Ok (b, a) /\
    (0.5 <= r -> b == min_spread self /\ a == min_spread self * (1 + (r - 0.5) * 0.5)) /\
    (r <= 0.5 -> a == min_spread self /\ b == min_spread self * (1 + (0.5 - r) * 0.5)).
Proof.
  intros Hs Hms Hv. rewrite (snapshot_returns h self v r Hs).
  rewrite skewed_spreads_floor. unfold floor_at.
  eexists. eexists. split; [reflexivity |].
  destruct (unfloored_spreads_value (min_spread self) v r) as [A1 A2].
  cbn [fst snd] in A1, A2.
  assert (Hbase : py_max (min_spread self) (v * 5) = min_spread self).
  { destruct (py_max_cases (min_spread self) (v * 5)) as [[Hlt _] | [_ E]]; [lra | exact E]. }
  rewrite Hbase in A1, A2.
  set (ms := min_spread self) in *.
  set (ub := fst (unfloored_spreads ms v r)) in *.
  set (ua := snd (unfloored_spreads ms v r)) in *.
  split; intros Hr; split.
  - destruct (py_max_cases ms ub) as [[Hlt _] | [_ ->]]; [nra | reflexivity].
  - destruct (py_max_cases ms ua) as [[_ ->] | [Hle ->]]; [rewrite A2; reflexivity | nra].
  - destruct (py_max_cases ms ua) as [[Hlt _] | [_ ->]]; [nra | reflexivity].
  - destruct (py_max_cases ms ub) as [[_ ->] | [Hle ->]]; [rewrite A1; lra | nra].
Qed.

Lemma market_host_snapshot (natr : list Q) (v base quote mid : Q) :
  iloc_last natr = Ok v ->
  snapshot (market_host natr base quote mid) AdaptiveMarketMaker v
           (inventory_ratio_of base (mid * quote)).
Proof.
  intros Hv.
  exists {| index_len := 2;
            columns := [("close"%string, [1; 2]); ("NATR_30"%string, natr)] |}.
  exists base, (mid * quote).
  split; [split; reflexivity |].
  split; [left; split; [reflexivity | exists natr; split; [reflexivity | exact Hv]] |].
  split; [supply_balances | reflexivity].
Defined.

Lemma quiet_market_only_widens_witness :
  exists b a,
    returned (calculate_spreads (market_host [0.0001] 8 2 1) AdaptiveMarketMaker) = Ok (b, a) /\
    (0.5 <= inventory_ratio_of 8 (1 * 2) ->
     b == 0.001 /\ a == 0.001 * (1 + (inventory_ratio_of 8 (1 * 2) - 0.5) * 0.5)) /\
    (inventory_ratio_of 8 (1 * 2) <= 0.5 ->
     a == 0.001 /\ b == 0.001 * (1 + (0.5 - inventory_ratio_of 8 (1 * 2)) * 0.5)).
Proof.
  apply (quiet_market_only_widens (market_host [0.0001] 8 2 1) AdaptiveMarketMaker 0.0001
           (inventory_ratio_of 8 (1 * 2))).
  - apply market_host_snapshot. reflexivity.
  - reflexivity.
  - vm_compute. discriminate.
Defined.


(** ** Every way [calculate_spreads] can go *)

Ltac spreads_step H := rewrite H; cbv beta iota.

Ltac spreads_try_raises :=
  left; eexists;
  unfold calculate_spreads_try; unfold bind at 1;
  rewrite get_candles_with_features_run;
  match goal with H : returned (get_candles_with_features _ _) = _ |- _ => rewrite H end;
  cbv beta iota;
  try match goal with H : df_empty _ = _ |- _ => rewrite H end;
  unfold bind, attr, call, ret, returned; cbn [fst snd];
  repeat match goal with
         | H : has_column _ _ = _ |- _ => spreads_step H; clear H
         | H : lookup _ _ = _ |- _ => spreads_step H; clear H
         | H : iloc_last _ = _ |- _ => spreads_step H; clear H
         | H : index _ _ = _ |- _ => spreads_step H; clear H
         | H : get_balance _ _ = _ |- _ => spreads_step H; clear H
         | H : get_price_by_type _ _ _ = _ |- _ => spreads_step H; clear H
         end;
  reflexivity.

Lemma calculate_spreads_try_cases (h : Host) (self : Strategy) :
  (exists e, calculate_spreads_try h self = (Raise e, self, []))
  \/ (exists df, returned (get_candles_with_features h self) = Ok df /\ df_empty df = true)
  \/ (exists v r, snapshot h self v r).
Proof.
  destruct (returned (get_candles_with_features h self)) as [df | e] eqn:Hdf;
    [| spreads_try_raises].
  destruct (df_empty df) eqn:Hne; [right; left; exists df; split; [reflexivity | exact Hne] |].
  assert (Hvol : (exists e, has_column (natr_label (candles_length self)) df = true /\
                   (lookup (natr_label (candles_length self)) (columns df) = Raise e \/
                    exists series, lookup (natr_label (candles_length self)) (columns df)
                                   = Ok series /\ iloc_last series = Raise e))
                 \/ exists v, reads_volatility self df v).
  { unfold reads_volatility. cbv zeta.
    destruct (has_column (natr_label (candles_length self)) df) eqn:Hc1.
    - destruct (lookup (natr_label (candles_length self)) (columns df)) as [series | e] eqn:Hl.
      + destruct (iloc_last series) as [v | e] eqn:Hi.
        * right. exists v. left. split; [reflexivity | exists series; split; reflexivity || assumption].
        * left. exists e. split; [reflexivity | right; exists series; split; reflexivity || assumption].
      + left. exists e. split; [reflexivity | left; reflexivity].
    - right. exists 0.001. right. split; reflexivity. }
  destruct Hvol as [(e & Hc1 & [Hl | (series & Hl & Hi)]) | (v & Hv)];
    [spreads_try_raises | spreads_try_raises |].
  destruct (lookup (exchange self) (connectors h)) as [conn | e] eqn:Hc.
  2: { destruct Hv as [(Hc1 & series & Hl & Hi) | (Hc1 & ->)]; spreads_try_raises. }
  destruct (index (split "-" (trading_pair self)) 0) as [ba | e] eqn:Hba.
  2: { destruct Hv as [(Hc1 & series & Hl & Hi) | (Hc1 & ->)]; spreads_try_raises. }
  destruct (get_balance conn ba) as [bb | e] eqn:Hbb.
  2: { destruct Hv as [(Hc1 & series & Hl & Hi) | (Hc1 & ->)]; spreads_try_raises. }
  destruct (get_price_by_type conn (trading_pair self) (price_source self)) as [mid | e] eqn:Hmid.
  2: { destruct Hv as [(Hc1 & series & Hl & Hi) | (Hc1 & ->)]; spreads_try_raises. }
  destruct (index (split "-" (trading_pair self)) 1) as [qa | e] eqn:Hqa.
  2: { destruct Hv as [(Hc1 & series & Hl & Hi) | (Hc1 & ->)]; spreads_try_raises. }
  destruct (get_balance conn qa) as [qu | e] eqn:Hqu.
  2: { destruct Hv as [(Hc1 & series & Hl & Hi) | (Hc1 & ->)]; spreads_try_raises. }
  right. right. exists v, (inventory_ratio_of bb (mid * qu)).
  exists df, bb, (mid * qu).
  split; [split; assumption |]. split; [exact Hv |]. split; [| reflexivity].
  exists conn, ba, qa, mid, qu. repeat split; assumption.
Qed.


(** X6.  Whatever the host answers, [calculate_spreads] returns a pair,
    leaves the object as it was and logs exactly one line.  There are
    three outcomes: an empty frame (the configured pair, logged at INFO as
    no candles); an exception in the [try] block (the configured pair,
    logged at ERROR with the exception); or a market snapshot (the skewed
    pair for its volatility and inventory ratio, logged at INFO). *)
Theorem calculate_spreads_outcomes (h : Host) (self : Strategy) :
  (exists df,
     returned (get_candles_with_features h self) = Ok df /\ df_empty df = true /\
     calculate_spreads h self =
       (Ok (bid_spread self, ask_spread self), self, [Log INFO MsgNoCandles]))
  \/ (exists e,
        returned (calculate_spreads_try h self) = Raise e /\
        calculate_spreads h self =
          (Ok (bid_spread self, ask_spread self), self, [Log ERROR (MsgErrorSpreads e)]))
  \/ (exists v r b a,
        snapshot h self v r /\ (b, a) = skewed_spreads (min_spread self) v r /\
        calculate_spreads h self = (Ok (b, a), self, [Log INFO (MsgCalculated b a v r)])).
Proof.
  destruct (calculate_spreads_try_cases h self) as [(e & He) | [(df & Hdf & Hempty) | (v & r & Hs)]].
  - right. left. exists e. split; [rewrite He; reflexivity |].
    unfold calculate_spreads, try_except. rewrite He. reflexivity.
  - left. exists df. split; [exact Hdf |]. split; [exact Hempty |].
    apply (calculate_spreads_no_candles h self df Hdf Hempty).
  - right. right.
    pose proof (calculate_spreads_on_snapshot h self v r Hs) as Hrun. cbv zeta in Hrun.
    destruct (skewed_spreads (min_spread self) v r) as [b a] eqn:E.
    exists v, r, b, a. split; [exact Hs |]. split; [symmetry; exact E | exact Hrun].
Qed.

Lemma calculate_spreads_reachable_floor (h : Host) (self : Strategy) :
  reachable self ->
  exists b a,
    returned (calculate_spreads h self) = Ok (b, a) /\ 0.001 <= b /\ 0.001 <= a.
Proof.
  intros Hr. destruct (reachable_defaults self Hr) as (Hb & Ha & Hm).
  assert (Hdef : exists b a, Ok (bid_spread self, ask_spread self) = Ok (b, a)
                             /\ 0.001 <= b /\ 0.001 <= a).
  { exists (bid_spread self), (ask_spread self). rewrite Hb, Ha.
    split; [reflexivity | split; lra]. }
  destruct (calculate_spreads_try_cases h self) as [(e & He) | [(df & Hdf & Hempty) | (v & r & Hs)]].
  - assert (He' : returned (calculate_spreads_try h self) = Raise e) by (rewrite He; reflexivity).
    rewrite (calculate_spreads_caught h self e He'). exact Hdef.
  - rewrite (calculate_spreads_no_candles h self df Hdf Hempty). exact Hdef.
  - rewrite (snapshot_returns h self v r Hs).
    destruct (skewed_spreads_floored (min_spread self) v r) as [Fb Fa].
    rewrite Hm in *.
    destruct (skewed_spreads 0.001 v r) as [b a]. exists b, a.
    split; [reflexivity | split; assumption].
Qed.

(** X7.  On an object in any state of its life, both spreads
    [calculate_spreads] returns are at least 0.001 (the class value of
    the minimum spread and of both default spreads), on the fallback
    paths as on the computed one and for every host; the unclamped quote
    factors [1 - bid_spread] and [1 + ask_spread] are therefore at most
    0.999 and at least 1.001. *)
Theorem reachable_spreads_at_least_default (h : Host) (self : Strategy) :
  reachable self ->
  exists b a,
    returned (calculate_spreads h self) = Ok (b, a) /\
    min_spread self <= b /\ min_spread self <= a /\
    0.001 <= b /\ 0.001 <= a /\
    1 - b <= 0.999 /\ 1.001 <= 1 + a.
Proof.
  intros Hr. destruct (reachable_defaults self Hr) as (_ & _ & Hm).
  destruct (calculate_spreads_reachable_floor h self Hr) as (b & a & Hs & Hb & Ha).
  exists b, a. rewrite Hm. repeat split; try assumption; lra.
Qed.

Lemma reachable_spreads_at_least_default_witness :
  exists b a,
    returned (calculate_spreads no_book_host (final (on_tick sample_host AdaptiveMarketMaker)))
      = Ok (b, a) /\
    min_spread (final (on_tick sample_host AdaptiveMarketMaker)) <= b /\
    min_spread (final (on_tick sample_host AdaptiveMarketMaker)) <= a /\
    0.001 <= b /\ 0.001 <= a /\
    1 - b <= 0.999 /\ 1.001 <= 1 + a.
Proof.
  apply (reachable_spreads_at_least_default no_book_host
           (final (on_tick sample_host AdaptiveMarketMaker))).
  apply reach_on_tick. apply reach_class.
Defined.

Lemma split_without_separator (sep : ascii) (s : string) :
  contains sep s = false -> split sep s = [s].
Proof.
  induction s as [| c rest IH]; simpl; intros H.
  - reflexivity.
  - apply orb_false_iff in H as [Hc Hrest].
    rewrite Hc, (IH Hrest). reflexivity.
Qed.

(** X8.  With a trading pair that contains no dash, the quote asset
    cannot be read off the pair: whatever the host answers,
    [calculate_spreads] never reaches the spread arithmetic and returns
    the configured pair [(self.bid_spread, self.ask_spread)]. *)
Theorem undashed_pair_quotes_defaults (h : Host) (self : Strategy) :
  contains "-" (trading_pair self) = false ->
  returned (calculate_spreads h self) = Ok (bid_spread self, ask_spread self).
Proof.
  intros Hdash.
  destruct (calculate_spreads_try_cases h self) as [(e & He) | [(df & Hdf & Hempty) | (v & r & Hs)]].
  - assert (He' : returned (calculate_spreads_try h self) = Raise e) by (rewrite He; reflexivity).
    rewrite (calculate_spreads_caught h self e He'). reflexivity.
  - rewrite (calculate_spreads_no_candles h self df Hdf Hempty). reflexivity.
  - destruct Hs as (df & bb & qb & _ & _ & Hb & _).
    destruct Hb as (conn & ba & qa & mid & qu & _ & _ & _ & _ & Hqa & _).
    rewrite (split_without_separator "-" (trading_pair self) Hdash) in Hqa.
    discriminate Hqa.
Qed.

Lemma undashed_pair_quotes_defaults_witness :
  returned (calculate_spreads sample_host undashed_strategy) = Ok (0.001, 0.001).
Proof.
  apply (undashed_pair_quotes_defaults sample_host undashed_strategy). reflexivity.
Defined.


(** ** Proposals *)

Lemma calculate_spreads_logs_only (h : Host) (self : Strategy) :
  order_calls (trace (calculate_spreads h self)) = [].
Proof.
  destruct (calculate_spreads_try_cases h self) as [(e & He) | [(df & Hdf & Hempty) | (v & r & Hs)]].
  - unfold calculate_spreads, try_except. rewrite He. reflexivity.
  - rewrite (calculate_spreads_no_candles h self df Hdf Hempty). reflexivity.
  - rewrite (calculate_spreads_on_snapshot h self v r Hs). reflexivity.
Qed.

Lemma order_calls_app (tr1 tr2 : list Event) :
  order_calls (tr1 ++ tr2) = order_calls tr1 ++ order_calls tr2.
Proof. unfold order_calls. apply filter_app. Qed.

Lemma create_proposal_run (h : Host) (self : Strategy) (conn : Connector) (P b a B A : Q) :
  lookup (exchange self) (connectors h) = Ok conn ->
  get_price_by_type conn (trading_pair self) (price_source self) = Ok P ->
  returned (calculate_spreads h self) = Ok (b, a) ->
  get_price conn (trading_pair self) false = Ok B ->
  get_price conn (trading_pair self) true = Ok A ->
  create_proposal h self =
  (Ok [ {| oc_trading_pair := trading_pair self; is_maker := true; order_type := LIMIT;
           order_side := BUY; amount := order_amount self;
           price := py_min (P * (1 - b)) B |};
        {| oc_trading_pair := trading_pair self; is_maker := true; order_type := LIMIT;
           order_side := SELL; amount := order_amount self;
           price := py_max (P * (1 + a)) A |} ],
   self,
   trace (calculate_spreads h self) ++
   [Log INFO (MsgProposal P (py_min (P * (1 - b)) B) (py_max (P * (1 + a)) A))]).
Proof.
  intros Hc HP Hs HB HA.
  unfold create_proposal, bind, attr, call, ret, log_with_clock, emit.
  cbn [fst snd]. rewrite Hc, HP.
  rewrite calculate_spreads_run, Hs, HB, HA. reflexivity.
Qed.

(** X9.  [create_proposal] never writes an attribute and never calls the
    order API, whether it returns or raises.  Whenever it returns, it
    returns exactly two limit maker orders on [self.trading_pair] for
    [self.order_amount], a BUY followed by a SELL.  When the connector
    lookup or one of its three price reads raises, it raises as well, and
    what it raises is an exception of one of those reads. *)
Theorem create_proposal_shape (h : Host) (self : Strategy) :
  final (create_proposal h self) = self /\
  order_calls (trace (create_proposal h self)) = [] /\
  (forall proposal,
     returned (create_proposal h self) = Ok proposal ->
     exists buy_order sell_order,
       proposal = [buy_order; sell_order] /\
       order_side buy_order = BUY /\ order_side sell_order = SELL /\
       order_type buy_order = LIMIT /\ order_type sell_order = LIMIT /\
       is_maker buy_order = true /\ is_maker sell_order = true /\
       amount buy_order = order_amount self /\ amount sell_order = order_amount self /\
       oc_trading_pair buy_order = trading_pair self /\
       oc_trading_pair sell_order = trading_pair self) /\
  ((exists e, price_read_raises h self e) ->
   exists e, returned (create_proposal h self) = Raise e /\ price_read_raises h self e).
Proof.
  split; [apply create_proposal_read_only |].
  destruct (calculate_spreads_never_raises h self) as [[b a] Hs].
  pose proof (calculate_spreads_logs_only h self) as Hlog.
  unfold price_read_raises.
  destruct (lookup (exchange self) (connectors h)) as [conn | e] eqn:Hc.
  2: { assert (E : create_proposal h self = (Raise e, self, [])).
       { unfold create_proposal, bind, attr, call. cbn [fst snd]. rewrite Hc. reflexivity. }
       rewrite E. split; [reflexivity |]. split; [intros proposal Hp; discriminate Hp |].
       intros _. exists e. split; [reflexivity | left; reflexivity]. }
  destruct (get_price_by_type conn (trading_pair self) (price_source self)) as [P | e] eqn:HP.
  2: { assert (E : create_proposal h self = (Raise e, self, [])).
       { unfold create_proposal, bind, attr, call. cbn [fst snd]. rewrite Hc, HP. reflexivity. }
       rewrite E. split; [reflexivity |]. split; [intros proposal Hp; discriminate Hp |].
       intros _. exists e. split; [reflexivity |].
       right. exists conn. split; [reflexivity | left; exact HP]. }
  destruct (get_price conn (trading_pair self) false) as [B | e] eqn:HB.
  2: { assert (E : create_proposal h self = (Raise e, self, trace (calculate_spreads h self))).
       { unfold create_proposal, bind, attr, call. cbn [fst snd]. rewrite Hc, HP.
         rewrite calculate_spreads_run, Hs, HB. rewrite app_nil_r. reflexivity. }
       rewrite E. split; [exact Hlog |]. split; [intros proposal Hp; discriminate Hp |].
       intros _. exists e. split; [reflexivity |].
       right. exists conn. split; [reflexivity | right; left; exact HB]. }
  destruct (get_price conn (trading_pair self) true) as [A | e] eqn:HA.
  2: { assert (E : create_proposal h self = (Raise e, self, trace (calculate_spreads h self))).
       { unfold create_proposal, bind, attr, call. cbn [fst snd]. rewrite Hc, HP.
         rewrite calculate_spreads_run, Hs, HB, HA. rewrite !app_nil_r. reflexivity. }
       rewrite E. split; [exact Hlog |]. split; [intros proposal Hp; discriminate Hp |].
       intros _. exists e. split; [reflexivity |].
       right. exists conn. split; [reflexivity | right; right; exact HA]. }
  rewrite (create_proposal_run h self conn P b a B A Hc HP Hs HB HA).
  split; [| split].
  - unfold trace. cbn [snd]. rewrite order_calls_app.
    unfold trace in Hlog. rewrite Hlog. reflexivity.
  - intros proposal Hp. unfold returned in Hp. cbn [fst] in Hp. injection Hp as <-.
    eexists. eexists. split; [reflexivity |]. repeat split.
  - intros (e & [Hl | (conn' & Hl & [H1 | [H1 | H1]])]).
    + discriminate Hl.
    + injection Hl as <-. rewrite HP in H1. discriminate H1.
    + injection Hl as <-. rewrite HB in H1. discriminate H1.
    + injection Hl as <-. rewrite HA in H1. discriminate H1.
Qed.

Lemma create_proposal_shape_witness :
  exists e,
    returned (create_proposal no_book_host AdaptiveMarketMaker) = Raise e /\
    price_read_raises no_book_host AdaptiveMarketMaker e.
Proof.
  destruct (create_proposal_shape no_book_host AdaptiveMarketMaker) as (_ & _ & _ & Hraise).
  apply Hraise.
  exists (HostError "No order book exists for SOL-USDT").
  right. exists no_book_connector. split; [reflexivity | left; reflexivity].
Defined.

Lemma py_min_first (a b : Q) : py_min a b <= a.
Proof. destruct (py_min_cases a b) as [[H ->] | [H ->]]; lra. Qed.

Lemma py_max_first (a b : Q) : a <= py_max a b.
Proof. apply py_max_lower. Qed.

(** X10.  On an object in any state of its life and for a non-negative
    reference price [P], the orders [create_proposal] returns straddle
    the reference price, whichever path [calculate_spreads] took: the
    buy price is at most [P * 0.999], the sell price is at least [P],
    so the buy price never exceeds the sell price; for a positive
    reference price the buy price is below it and the sell price above
    it. *)
Theorem proposal_straddles_reference
        (h : Host) (self : Strategy) (conn : Connector) (P B A : Q) :
  reachable self ->
  lookup (exchange self) (connectors h) = Ok conn ->
  get_price_by_type conn (trading_pair self) (price_source self) = Ok P ->
  get_price conn (trading_pair self) false = Ok B ->
  get_price conn (trading_pair self) true = Ok A ->
  0 <= P ->
  exists buy_order sell_order,
    returned (create_proposal h self) = Ok [buy_order; sell_order] /\
    price buy_order <= P * 0.999 /\
    P <= price sell_order /\
    price buy_order <= price sell_order /\
    (0 < P -> price buy_order < P /\ P < price sell_order).
Proof.
  intros Hr Hc HP HB HA HP0.
  destruct (calculate_spreads_reachable_floor h self Hr) as (b & a & Hs & Hb & Ha).
  rewrite (create_proposal_run h self conn P b a B A Hc HP Hs HB HA).
  eexists. eexists. split; [reflexivity |]. cbn [price].
  pose proof (py_min_first (P * (1 - b)) B) as Hbuy.
  pose proof (py_max_first (P * (1 + a)) A) as Hsell.
  repeat split; try nra.
Qed.

Lemma proposal_straddles_reference_witness :
  exists buy_order sell_order,
    returned (create_proposal sample_host AdaptiveMarketMaker) = Ok [buy_order; sell_order] /\
    price buy_order <= 0.01 * 0.999 /\
    0.01 <= price sell_order /\
    price buy_order <= price sell_order /\
    (0 < 0.01 -> price buy_order < 0.01 /\ 0.01 < price sell_order).
Proof.
  apply (proposal_straddles_reference sample_host AdaptiveMarketMaker (paper_connector 0.01)
           0.01 (0.01 - 0.0001) (0.01 + 0.0001)).
  - apply reach_class.
  - reflexivity.
  - reflexivity.
  - reflexivity.
  - reflexivity.
  - vm_compute. discriminate.
Defined.

(** X11.  The spreads have no ceiling.  On a snapshot with volatility at
    least 0.2 and an inventory ratio at or below 0.5, the bid spread is at
    least 1, and for a non-negative reference price the buy order
    [create_proposal] returns has a price of zero or less. *)
Theorem extreme_volatility_buy_price
        (h : Host) (self : Strategy) (conn : Connector) (v r P B A : Q) :
  snapshot h self v r ->
  (1 # 5) <= v -> r <= 0.5 ->
  lookup (exchange self) (connectors h) = Ok conn ->
  get_price_by_type conn (trading_pair self) (price_source self) = Ok P ->
  get_price conn (trading_pair self) false = Ok B ->
  get_price conn (trading_pair self) true = Ok A ->
  0 <= P ->
  exists b a buy_order sell_order,
    returned (calculate_spreads h self) = Ok (b, a) /\ 1 <= b /\
    returned (create_proposal h self) = Ok [buy_order; sell_order] /\
    price buy_order <= 0.
Proof.
  intros Hs Hv Hr Hc HP HB HA HP0.
  pose proof (snapshot_returns h self v r Hs) as Hret.
  assert (Hb : 1 <= fst (skewed_spreads (min_spread self) v r)).
  { rewrite skewed_spreads_floor. unfold floor_at. cbn [fst].
    destruct (unfloored_spreads_value (min_spread self) v r) as [A1 _].
    cbn [fst] in A1.
    destruct (base_spread_lower (min_spread self) v) as [_ Hbase].
    pose proof (py_max_upper (min_spread self)
                  (fst (unfloored_spreads (min_spread self) v r))) as Hup.
    set (base := py_max (min_spread self) (v * 5)) in *.
    set (ub := fst (unfloored_spreads (min_spread self) v r)) in *.
    nra. }
  destruct (skewed_spreads (min_spread self) v r) as [b a]. cbn [fst] in Hb.
  exists b, a.
  rewrite (create_proposal_run h self conn P b a B A Hc HP Hret HB HA).
  eexists. eexists. split; [exact Hret |]. split; [exact Hb |].
  split; [reflexivity |]. cbn [price].
  pose proof (py_min_first (P * (1 - b)) B) as Hbuy. nra.
Qed.

Lemma extreme_volatility_buy_price_witness :
  exists b a buy_order sell_order,
    returned (calculate_spreads (market_host [0.25] 2 8 1) AdaptiveMarketMaker) = Ok (b, a) /\
    1 <= b /\
    returned (create_proposal (market_host [0.25] 2 8 1) AdaptiveMarketMaker)
      = Ok [buy_order; sell_order] /\
    price buy_order <= 0.
Proof.
  apply (extreme_volatility_buy_price (market_host [0.25] 2 8 1) AdaptiveMarketMaker
           {| get_balance := fun asset => if String.eqb asset "SOL" then Ok 2 else Ok 8;
              get_price_by_type := fun _ _ => Ok 1;
              get_price := fun _ is_buy => if is_buy then Ok (1 + 0.0001) else Ok (1 - 0.0001);
              adjust_candidates := fun proposal _ => Ok proposal |}
           0.25 (inventory_ratio_of 2 (1 * 8)) 1 (1 - 0.0001) (1 + 0.0001)).
  - apply market_host_snapshot. reflexivity.
  - vm_compute. discriminate.
  - vm_compute. discriminate.
  - reflexivity.
  - reflexivity.
  - reflexivity.
  - reflexivity.
  - vm_compute. discriminate.
Defined.


(** ** Calls to the order API *)

Lemma logs_only_ret {A} (a : A) : logs_only (ret a).
Proof. intros self. reflexivity. Qed.

Lemma logs_only_attr {A} (f : Strategy -> A) : logs_only (attr f).
Proof. intros self. reflexivity. Qed.

Lemma logs_only_call {A} (r : result A) : logs_only (call r).
Proof. intros self. reflexivity. Qed.

Lemma logs_only_log (level : LogLevel) (msg : LogMsg) : logs_only (log_with_clock level msg).
Proof. intros self. reflexivity. Qed.

Lemma logs_only_bind {A B} (m : M A) (k : A -> M B) :
  logs_only m -> (forall a, logs_only (k a)) -> logs_only (bind m k).
Proof.
  intros Hm Hk self. unfold bind, trace.
  specialize (Hm self). unfold trace in Hm.
  destruct (m self) as [[[a | e] s'] tr]; cbn [fst snd] in *; [| exact Hm].
  specialize (Hk a s'). unfold trace in Hk.
  destruct (k a s') as [[r s''] tr']. cbn [fst snd] in *.
  rewrite order_calls_app, Hm, Hk. reflexivity.
Qed.

Lemma logs_only_try_except {A} (body : M A) (handler : exn -> M A) :
  logs_only body -> (forall e, logs_only (handler e)) -> logs_only (try_except body handler).
Proof.
  intros Hm Hk self. unfold try_except, trace.
  specialize (Hm self). unfold trace in Hm.
  destruct (body self) as [[[a | e] s'] tr]; cbn [fst snd] in *; [exact Hm |].
  specialize (Hk e s'). unfold trace in Hk.
  destruct (handler e s') as [[r s''] tr']. cbn [fst snd] in *.
  rewrite order_calls_app, Hm, Hk. reflexivity.
Qed.

Ltac logs :=
  repeat first
    [ progress intros
    | apply logs_only_bind | apply logs_only_try_except
    | apply logs_only_ret | apply logs_only_attr | apply logs_only_call
    | apply logs_only_log
    | match goal with
      | |- logs_only (match ?x with _ => _ end) => destruct x
      | |- logs_only (let _ := _ in _) => cbv zeta
      end ].

Lemma calculate_spreads_is_logs_only (h : Host) : logs_only (calculate_spreads h).
Proof.
  unfold calculate_spreads, calculate_spreads_try, calculate_spreads_except,
    get_candles_with_features.
  logs.
Qed.

Lemma create_proposal_is_logs_only (h : Host) : logs_only (create_proposal h).
Proof.
  unfold create_proposal. logs.
Qed.

Lemma adjust_proposal_to_budget_is_logs_only (h : Host) (proposal : list OrderCandidate) :
  logs_only (adjust_proposal_to_budget h proposal).
Proof. unfold adjust_proposal_to_budget. logs. Qed.

Lemma read_only_run {A} (m : M A) (self : Strategy) :
  read_only m -> m self = (returned (m self), self, trace (m self)).
Proof.
  intros Hm. specialize (Hm self). unfold returned, final, trace in *.
  destruct (m self) as [[r s'] tr]. cbn [fst snd] in *. subst. reflexivity.
Qed.

Lemma for_each_run {A} (xs : list A) (body : A -> M unit) (f : A -> list Event)
      (self : Strategy) :
  (forall x, body x self = (Ok tt, self, f x)) ->
  for_each xs body self = (Ok tt, self, flat_map f xs).
Proof.
  intros Hbody. induction xs as [| x rest IH].
  - reflexivity.
  - cbn [for_each flat_map]. unfold bind. rewrite Hbody, IH. reflexivity.
Qed.

Lemma cancel_all_orders_run (h : Host) (self : Strategy) :
  cancel_all_orders h self =
  (Ok tt, self, cancel_events (exchange self) (get_active_orders h (exchange self))).
Proof.
  unfold cancel_all_orders, cancel_events. unfold bind at 1. unfold attr at 1.
  cbv beta iota zeta.
  destruct (get_active_orders h (exchange self)) as [| o rest] eqn:E.
  - reflexivity.
  - unfold bind at 1. unfold log_with_clock, emit. cbv beta iota.
    rewrite (for_each_run (o :: rest) _ (fun order => [cancel_call (exchange self) order]) self)
      by (intros x; reflexivity).
    reflexivity.
Qed.

Lemma place_order_run (name : string) (order : OrderCandidate) (self : Strategy) :
  place_order name order self = (Ok tt, self, submit_calls name order).
Proof. unfold place_order, submit_calls. destruct (order_side order); reflexivity. Qed.

Lemma place_orders_run (proposal : list OrderCandidate) (self : Strategy) :
  place_orders proposal self =
  (Ok tt, self, flat_map (placed_events (exchange self)) proposal).
Proof.
  unfold place_orders. apply for_each_run. intros order.
  unfold bind, attr. cbv beta iota zeta. rewrite place_order_run.
  unfold log_with_clock, emit, placed_events. reflexivity.
Qed.

Lemma order_calls_cancel_events (ex : string) (orders : list ActiveOrder) :
  order_calls (cancel_events ex orders) = map (cancel_call ex) orders.
Proof.
  unfold cancel_events. destruct orders as [| o rest]; [reflexivity |].
  unfold order_calls. cbn [filter is_order_call].
  generalize (o :: rest). intros l. induction l as [| x l IH]; [reflexivity |].
  cbn [map filter cancel_call is_order_call]. rewrite IH. reflexivity.
Qed.

Lemma order_calls_submit_calls (name : string) (order : OrderCandidate) :
  order_calls (submit_calls name order) = submit_calls name order.
Proof. unfold submit_calls. destruct (order_side order); reflexivity. Qed.

Lemma order_calls_placed_events (name : string) (proposal : list OrderCandidate) :
  order_calls (flat_map (placed_events name) proposal) =
  flat_map (submit_calls name) proposal.
Proof.
  induction proposal as [| o rest IH]; [reflexivity |].
  cbn [flat_map]. rewrite order_calls_app, IH. unfold placed_events.
  rewrite order_calls_app, order_calls_submit_calls. cbn [order_calls filter is_order_call].
  rewrite app_nil_r. reflexivity.
Qed.

(** X12.  [cancel_all_orders] never raises and never writes an attribute.
    It cancels every active order of [self.exchange] exactly once, in the
    order the host lists them, each with its own trading pair and client
    order id; with no active order it emits nothing, not even a log
    line. *)
Theorem cancel_all_orders_cancels_each_once (h : Host) (self : Strategy) :
  returned (cancel_all_orders h self) = Ok tt /\
  final (cancel_all_orders h self) = self /\
  order_calls (trace (cancel_all_orders h self)) =
    map (cancel_call (exchange self)) (get_active_orders h (exchange self)) /\
  (get_active_orders h (exchange self) = [] -> trace (cancel_all_orders h self) = []).
Proof.
  rewrite cancel_all_orders_run. unfold returned, final, trace. cbn [fst snd].
  split; [reflexivity |]. split; [reflexivity |].
  split; [apply order_calls_cancel_events |].
  intros ->. reflexivity.
Qed.

Lemma cancel_all_orders_cancels_each_once_witness :
  trace (cancel_all_orders no_book_host AdaptiveMarketMaker) = [].
Proof.
  destruct (cancel_all_orders_cancels_each_once no_book_host AdaptiveMarketMaker)
    as (_ & _ & _ & Hnone).
  apply Hnone. reflexivity.
Defined.

(** X13.  [place_orders] never raises and never writes an attribute.  For
    each candidate of the proposal, in order, it makes one call to the
    order API (a buy for a BUY candidate, a sell for a SELL candidate,
    with the candidate's own pair, amount, order type and price) followed
    by one log line; a candidate that is neither BUY nor SELL is logged as
    placed although no call is made for it. *)
Theorem place_orders_submits_each_once (proposal : list OrderCandidate) (self : Strategy) :
  returned (place_orders proposal self) = Ok tt /\
  final (place_orders proposal self) = self /\
  trace (place_orders proposal self) = flat_map (placed_events (exchange self)) proposal /\
  order_calls (trace (place_orders proposal self)) =
    flat_map (submit_calls (exchange self)) proposal.
Proof.
  rewrite place_orders_run. unfold returned, final, trace. cbn [fst snd].
  repeat split. apply order_calls_placed_events.
Qed.


(** ** The refresh cycle, call by call *)

Lemma bind_run_ok {A B} (m : M A) (k : A -> M B) (self s' : Strategy) (a : A)
      (tr : list Event) :
  m self = (Ok a, s', tr) ->
  bind m k self = (returned (k a s'), final (k a s'), tr ++ trace (k a s')).
Proof.
  intros H. unfold bind, returned, final, trace. rewrite H.
  destruct (k a s') as [[r s''] tr']. reflexivity.
Qed.

Lemma bind_run_raise {A B} (m : M A) (k : A -> M B) (self s' : Strategy) (e : exn)
      (tr : list Event) :
  m self = (Raise e, s', tr) -> bind m k self = (Raise e, s', tr).
Proof. intros H. unfold bind. rewrite H. reflexivity. Qed.

Lemma adjust_proposal_to_budget_run (h : Host) (proposal : list OrderCandidate)
      (self : Strategy) :
  adjust_proposal_to_budget h proposal self =
  (returned (adjust_proposal_to_budget h proposal self), self,
   trace (adjust_proposal_to_budget h proposal self)).
Proof. apply read_only_run. apply adjust_proposal_to_budget_read_only. Qed.

Lemma create_proposal_full_run (h : Host) (self : Strategy) :
  create_proposal h self =
  (returned (create_proposal h self), self, trace (create_proposal h self)).
Proof. apply read_only_run. apply create_proposal_read_only. Qed.

(** The run of a due tick, by the outcome of its two fallible steps. *)
Lemma on_tick_due_run (h : Host) (self : Strategy) :
  Qle_bool (create_timestamp self) (current_timestamp h) = true ->
  let cancels := cancel_events (exchange self) (get_active_orders h (exchange self)) in
  let rp := create_proposal h self in
  on_tick h self =
  match returned rp with
  | Raise e => (Raise e, self, Log INFO MsgTickRefreshing :: cancels ++ trace rp)
  | Ok proposal =>
      let ra := adjust_proposal_to_budget h proposal self in
      match returned ra with
      | Raise e =>
          (Raise e, self, Log INFO MsgTickRefreshing :: cancels ++ trace rp ++ trace ra)
      | Ok adjusted =>
          (Ok tt,
           set_create_timestamp (order_refresh_time self + current_timestamp h) self,
           Log INFO MsgTickRefreshing :: cancels ++ trace rp ++ trace ra ++
           flat_map (placed_events (exchange self)) adjusted)
      end
  end.
Proof.
  intros Hdue cancels rp. rewrite on_tick_unfold, Hdue.
  rewrite (bind_run_ok _ _ self self tt [Log INFO MsgTickRefreshing]) by reflexivity.
  rewrite (bind_run_ok _ _ self self tt cancels) by apply cancel_all_orders_run.
  subst rp. destruct (returned (create_proposal h self)) as [proposal | e] eqn:Hp.
  - rewrite (bind_run_ok _ _ self self proposal (trace (create_proposal h self)))
      by (rewrite create_proposal_full_run at 1; rewrite Hp; reflexivity).
    cbv zeta.
    destruct (returned (adjust_proposal_to_budget h proposal self)) as [adjusted | e] eqn:Ha.
    + rewrite (bind_run_ok _ _ self self adjusted
                 (trace (adjust_proposal_to_budget h proposal self)))
        by (rewrite adjust_proposal_to_budget_run at 1; rewrite Ha; reflexivity).
      rewrite (bind_run_ok _ _ self self tt
                 (flat_map (placed_events (exchange self)) adjusted))
        by apply place_orders_run.
      unfold returned, final, trace. cbn [fst snd bind attr assign app].
      rewrite !app_nil_r. reflexivity.
    + rewrite (bind_run_raise _ _ self self e
                 (trace (adjust_proposal_to_budget h proposal self)))
        by (rewrite adjust_proposal_to_budget_run at 1; rewrite Ha; reflexivity).
      reflexivity.
  - rewrite (bind_run_raise _ _ self self e (trace (create_proposal h self)))
      by (rewrite create_proposal_full_run at 1; rewrite Hp; reflexivity).
    reflexivity.
Qed.


Lemma adjust_proposal_to_budget_returns (h : Host) (self : Strategy) (conn : Connector)
      (proposal : list OrderCandidate) (r : result (list OrderCandidate)) :
  lookup (exchange self) (connectors h) = Ok conn ->
  adjust_candidates conn proposal true = r ->
  returned (adjust_proposal_to_budget h proposal self) = r.
Proof.
  intros Hc Hr. unfold adjust_proposal_to_budget, bind, attr, call, returned.
  cbn [fst snd]. rewrite Hc, Hr.
  destruct r as [adjusted | e]; [| reflexivity].
  destruct (negb (Datatypes.length adjusted =? Datatypes.length proposal)%nat); reflexivity.
Qed.

(** X14.  A due tick on which [create_proposal] returns and the budget
    checker answers completes the cycle: [on_tick] returns, sets
    [create_timestamp] to [order_refresh_time + current_timestamp], and
    its calls to the order API are, in this order, one cancel per active
    order and then the submissions of exactly the candidates the budget
    checker returned.  When the checker returns no candidate, nothing is
    submitted and the timer is advanced all the same. *)
Theorem refresh_cancels_then_submits
        (h : Host) (self : Strategy) (conn : Connector)
        (proposal adjusted : list OrderCandidate) :
  create_timestamp self <= current_timestamp h ->
  returned (create_proposal h self) = Ok proposal ->
  lookup (exchange self) (connectors h) = Ok conn ->
  adjust_candidates conn proposal true = Ok adjusted ->
  returned (on_tick h self) = Ok tt /\
  final (on_tick h self) =
    set_create_timestamp (order_refresh_time self + current_timestamp h) self /\
  order_calls (trace (on_tick h self)) =
    map (cancel_call (exchange self)) (get_active_orders h (exchange self)) ++
    flat_map (submit_calls (exchange self)) adjusted.
Proof.
  intros Hdue Hp Hc Ha. apply Qle_bool_iff in Hdue.
  pose proof (adjust_proposal_to_budget_returns h self conn proposal _ Hc Ha) as Hadj.
  rewrite (on_tick_due_run h self Hdue). cbv zeta. rewrite Hp, Hadj.
  unfold returned, final, trace. cbn [fst snd].
  split; [reflexivity |]. split; [reflexivity |].
  change (Log INFO MsgTickRefreshing :: ?l) with ([Log INFO MsgTickRefreshing] ++ l).
  rewrite !order_calls_app.
  rewrite order_calls_cancel_events, order_calls_placed_events.
  pose proof (create_proposal_is_logs_only h self) as L1.
  pose proof (adjust_proposal_to_budget_is_logs_only h proposal self) as L2.
  unfold trace in L1, L2. rewrite L1, L2. reflexivity.
Qed.

Lemma refresh_cancels_then_submits_witness :
  returned (on_tick broke_host AdaptiveMarketMaker) = Ok tt /\
  final (on_tick broke_host AdaptiveMarketMaker) =
    set_create_timestamp (15 + 100) AdaptiveMarketMaker /\
  order_calls (trace (on_tick broke_host AdaptiveMarketMaker)) =
    [CancelOrder "binance_paper_trade" "SOL-USDT" "buy-1";
     CancelOrder "binance_paper_trade" "SOL-USDT" "sell-1"].
Proof.
  eapply (refresh_cancels_then_submits broke_host AdaptiveMarketMaker _ _ []).
  - vm_compute. discriminate.
  - reflexivity.
  - reflexivity.
  - reflexivity.
Defined.

(** X15.  A due tick on which [create_proposal] or the budget adjustment
    raises is abandoned after the cancels: [on_tick] raises the same
    exception, every active order has been cancelled, no order has been
    submitted, and [create_timestamp] is not advanced, so a tick at the
    same or a later time is due again. *)
Theorem aborted_refresh_cancels_without_replacing
        (h h' : Host) (self : Strategy) (e : exn) :
  create_timestamp self <= current_timestamp h ->
  returned (create_proposal h self) = Raise e
  \/ (exists proposal,
        returned (create_proposal h self) = Ok proposal /\
        returned (adjust_proposal_to_budget h proposal self) = Raise e) ->
  current_timestamp h <= current_timestamp h' ->
  returned (on_tick h self) = Raise e /\
  final (on_tick h self) = self /\
  order_calls (trace (on_tick h self)) =
    map (cancel_call (exchange self)) (get_active_orders h (exchange self)) /\
  create_timestamp (final (on_tick h self)) <= current_timestamp h'.
Proof.
  intros Hdue Hfail Hlater.
  pose proof Hdue as Hdue'. apply Qle_bool_iff in Hdue'.
  pose proof (create_proposal_is_logs_only h self) as L1. unfold trace in L1.
  rewrite (on_tick_due_run h self Hdue'). cbv zeta.
  destruct Hfail as [Hp | (proposal & Hp & Ha)].
  - rewrite Hp. unfold returned, final, trace. cbn [fst snd].
    split; [reflexivity |]. split; [reflexivity |]. split; [| lra].
    change (Log INFO MsgTickRefreshing :: ?l) with ([Log INFO MsgTickRefreshing] ++ l).
    rewrite !order_calls_app, order_calls_cancel_events, L1.
    cbn [order_calls filter is_order_call app]. rewrite app_nil_r. reflexivity.
  - rewrite Hp, Ha. unfold returned, final, trace. cbn [fst snd].
    split; [reflexivity |]. split; [reflexivity |]. split; [| lra].
    pose proof (adjust_proposal_to_budget_is_logs_only h proposal self) as L2.
    unfold trace in L2.
    change (Log INFO MsgTickRefreshing :: ?l) with ([Log INFO MsgTickRefreshing] ++ l).
    rewrite !order_calls_app, order_calls_cancel_events, L1, L2.
    cbn [order_calls filter is_order_call app]. rewrite app_nil_r. reflexivity.
Qed.

Lemma aborted_refresh_cancels_without_replacing_witness :
  returned (on_tick stale_book_host AdaptiveMarketMaker) =
    Raise (HostError "No order book exists for SOL-USDT") /\
  final (on_tick stale_book_host AdaptiveMarketMaker) = AdaptiveMarketMaker /\
  order_calls (trace (on_tick stale_book_host AdaptiveMarketMaker)) =
    [CancelOrder "binance_paper_trade" "SOL-USDT" "buy-1";
     CancelOrder "binance_paper_trade" "SOL-USDT" "sell-1"] /\
  create_timestamp (final (on_tick stale_book_host AdaptiveMarketMaker)) <= 101.
Proof.
  apply (aborted_refresh_cancels_without_replacing stale_book_host (sample_host_at 101)
           AdaptiveMarketMaker (HostError "No order book exists for SOL-USDT")).
  - vm_compute. discriminate.
  - left. reflexivity.
  - vm_compute. discriminate.
Defined.

Lemma run_ticks_keeps_config (hs : list Host) :
  forall (self : Strategy) (t : Tick),
    In t (run_ticks hs self) ->
    set_create_timestamp 0 (before t) = set_create_timestamp 0 self /\
    set_create_timestamp 0 (final (tick_run t)) = set_create_timestamp 0 self.
Proof.
  induction hs as [| h rest IH]; intros self t Hin.
  - destruct Hin.
  - destruct Hin as [<- | Hin].
    + cbn [before tick_run]. split; [reflexivity | apply on_tick_keeps_config].
    + destruct (IH (final (on_tick h self)) t Hin) as [H1 H2].
      rewrite on_tick_keeps_config in H1, H2. split; assumption.
Qed.

Lemma run_ticks_timer_monotone (hs : list Host) :
  forall (self : Strategy) (t : Tick),
    0 <= order_refresh_time self ->
    In t (run_ticks hs self) ->
    create_timestamp self <= create_timestamp (before t) /\
    create_timestamp (before t) <= create_timestamp (final (tick_run t)).
Proof.
  induction hs as [| h rest IH]; intros self t Hort Hin.
  - destruct Hin.
  - destruct (on_tick_timer_advances h self Hort) as [Hct Ho].
    destruct Hin as [<- | Hin].
    + cbn [before tick_run]. split; [lra | exact Hct].
    + destruct (IH (final (on_tick h self)) t) as [H1 H2].
      * rewrite Ho. exact Hort.
      * exact Hin.
      * split; [lra | exact H2].
Qed.

(** X16.  Over any succession of ticks, [on_tick] writes no attribute
    other than [create_timestamp]: before and after every tick the object
    equals the initial one up to that attribute.  With a non-negative
    [order_refresh_time] the timer never moves backwards. *)
Theorem ticks_write_only_the_timer (hs : list Host) (self : Strategy) (t : Tick) :
  In t (run_ticks hs self) ->
  set_create_timestamp 0 (before t) = set_create_timestamp 0 self /\
  set_create_timestamp 0 (final (tick_run t)) = set_create_timestamp 0 self /\
  (0 <= order_refresh_time self ->
   create_timestamp self <= create_timestamp (before t) /\
   create_timestamp (before t) <= create_timestamp (final (tick_run t))).
Proof.
  intros Hin. destruct (run_ticks_keeps_config hs self t Hin) as [H1 H2].
  split; [exact H1 |]. split; [exact H2 |].
  intros Hort. apply (run_ticks_timer_monotone hs self t Hort Hin).
Qed.

Lemma ticks_write_only_the_timer_witness :
  set_create_timestamp 0 (final (on_tick (sample_host_at 120)
                                   (final (on_tick (sample_host_at 100) AdaptiveMarketMaker))))
    = set_create_timestamp 0 AdaptiveMarketMaker /\
  create_timestamp (final (on_tick (sample_host_at 100) AdaptiveMarketMaker)) <=
  create_timestamp (final (on_tick (sample_host_at 120)
                             (final (on_tick (sample_host_at 100) AdaptiveMarketMaker)))).
Proof.
  destruct (ticks_write_only_the_timer [sample_host_at 100; sample_host_at 120]
              AdaptiveMarketMaker
              {| tick_host := sample_host_at 120;
                 before := final (on_tick (sample_host_at 100) AdaptiveMarketMaker);
                 tick_run := on_tick (sample_host_at 120)
                               (final (on_tick (sample_host_at 100) AdaptiveMarketMaker)) |})
    as (_ & Hcfg & Hmono).
  - right. left. reflexivity.
  - split; [exact Hcfg |].
    apply Hmono. vm_compute. discriminate.
Defined.


(** ** The status display *)

Lemma format_status_read_only (h : Host) (sh : StatusHost) : read_only (format_status h sh).
Proof. unfold format_status. frame. Qed.

Lemma format_status_is_logs_only (h : Host) (sh : StatusHost) : logs_only (format_status h sh).
Proof. unfold format_status. logs. Qed.

(** X17.  [format_status] has no side effect on the strategy or on its
    orders: whatever the hosts answer, and whether it returns or raises,
    it writes no attribute (the refresh timer included) and makes no call
    to the order API.  While the connectors are not ready it returns its
    one-line message without reading anything and without logging. *)
Theorem format_status_is_an_observer (h : Host) (sh : StatusHost) (self : Strategy) :
  final (format_status h sh self) = self /\
  order_calls (trace (format_status h sh self)) = [] /\
  (ready_to_trade sh = false ->
   format_status h sh self = (Ok "Market connectors are not ready."%string, self, [])).
Proof.
  split; [apply format_status_read_only |].
  split; [apply format_status_is_logs_only |].
  intros Hready. unfold format_status. rewrite Hready. reflexivity.
Qed.

(** X18.  The inventory share [format_status] displays is value-weighted
    ([base * mid] over [quote + base * mid], in percent), while the ratio
    [calculate_spreads] skews by is [base] over [base + mid * quote].  For
    positive balances and a positive mid price the two agree exactly when
    the mid price is 1. *)
Theorem displayed_ratio_is_not_the_skew_ratio (base quote mid : Q) :
  0 < base -> 0 < quote -> 0 < mid ->
  exists shown,
    status_inventory_ratio base quote mid = Some shown /\
    (shown / 100 == inventory_ratio_of base (mid * quote) <-> mid == 1).
Proof.
  intros Hb Hq Hm.
  assert (Ht1 : 0 < quote + base * mid) by nra.
  assert (Ht2 : 0 < base + mid * quote) by nra.
  unfold status_inventory_ratio, inventory_ratio_of. cbv zeta.
  rewrite (proj2 (Qlt_bool_iff 0 (quote + base * mid)) Ht1).
  rewrite (proj2 (Qlt_bool_iff 0 (base + mid * quote)) Ht2).
  eexists. split; [reflexivity |].
  assert (Ex : base * mid / (quote + base * mid) * 100 / 100
               == base * mid / (quote + base * mid)) by (field; lra).
  rewrite Ex.
  set (x := base * mid / (quote + base * mid)) in *.
  set (y := base / (base + mid * quote)) in *.
  assert (D1' : x * (quote + base * mid) == base * mid) by (subst x; field; lra).
  assert (D2' : y * (base + mid * quote) == base) by (subst y; field; lra).
  clear Ex. split.
  - intros Hxy.
    assert (Hc : base * mid * (base + mid * quote) == base * (quote + base * mid)).
    { assert (E1 : base * mid * (base + mid * quote)
                   == x * (quote + base * mid) * (base + mid * quote))
        by (rewrite D1'; reflexivity).
      assert (E2 : base * (quote + base * mid)
                   == y * (base + mid * quote) * (quote + base * mid))
        by (rewrite D2'; reflexivity).
      rewrite E1, E2, Hxy. ring. }
    assert (Hz : (mid - 1) * (base * quote * (mid + 1)) == 0).
    { assert (Ed : (mid - 1) * (base * quote * (mid + 1))
                   == base * mid * (base + mid * quote) - base * (quote + base * mid))
        by ring.
      rewrite Ed, Hc. ring. }
    apply Qmult_integral in Hz. destruct Hz as [Hz | Hz]; [lra |].
    assert (Hbq : 0 < base * quote) by (apply Qmult_lt_0_compat; assumption).
    assert (Hm1 : 0 < mid + 1) by lra.
    pose proof (Qmult_lt_0_compat _ _ Hbq Hm1) as Hpos. lra.
  - intros Hmid.
    assert (Hx : x * (base + quote) == base).
    { rewrite Hmid in D1'. lra. }
    assert (Hy : y * (base + quote) == base).
    { rewrite Hmid in D2'. lra. }
    assert (Hne : ~ base + quote == 0) by lra.
    apply (Qmult_inj_r x y (base + quote) Hne). lra.
Qed.

Lemma displayed_ratio_is_not_the_skew_ratio_witness :
  exists shown,
    status_inventory_ratio 7 300 0.01 = Some shown /\
    (shown / 100 == inventory_ratio_of 7 (0.01 * 300) <-> 0.01 == 1).
Proof.
  apply (displayed_ratio_is_not_the_skew_ratio 7 300 0.01); reflexivity.
Defined.

Lemma lookup_map_values {A B} (f : A -> B) (k : string) (d : list (string * A)) (v : A) :
  lookup k d = Ok v ->
  lookup k (map (fun c => (fst c, f (snd c))) d) = Ok (f v).
Proof.
  induction d as [| [k' v'] rest IH]; cbn [lookup map fst snd]; intros H.
  - discriminate.
  - destruct (String.eqb k k'); [injection H as ->; reflexivity | exact (IH H)].
Qed.

Lemma rev_last_n_head {A} (n : nat) (xs : list A) (x : A) (rest : list A) :
  (0 < n)%nat -> rev xs = x :: rest ->
  exists rest', rev (last_n n xs) = x :: rest'.
Proof.
  intros Hn Hrev. unfold last_n.
  assert (Hxs : xs = rev rest ++ [x]).
  { rewrite <- (rev_involutive xs), Hrev. reflexivity. }
  subst xs. rewrite length_app. cbn [Datatypes.length].
  rewrite skipn_app.
  assert (Hk : (Datatypes.length (rev rest) + 1 - n - Datatypes.length (rev rest) = 0)%nat)
    by lia.
  rewrite Hk. cbn [skipn]. rewrite rev_app_distr. cbn [rev app].
  eexists. reflexivity.
Qed.

Lemma last_n_length {A} (n : nat) (xs : list A) :
  (Datatypes.length (last_n n xs) <= n)%nat.
Proof. unfold last_n. rewrite length_skipn. lia. Qed.

(** X19.  The frame [format_status] displays keeps every column of the
    candle frame under its label, cut to its last five values, most
    recent first: a column is shown with at most five values, and its
    first displayed value is the one [iloc[-1]] reads, so the first row
    of the NATR column is the volatility [calculate_spreads] uses. *)
Theorem displayed_frame_starts_with_latest
        (df : DataFrame) (name : string) (series : list Q) :
  lookup name (columns df) = Ok series ->
  lookup name (columns (df_reversed (df_tail 5 df))) = Ok (rev (last_n 5 series)) /\
  (Datatypes.length (rev (last_n 5 series)) <= 5)%nat /\
  (index_len (df_reversed (df_tail 5 df)) <= 5)%nat /\
  (forall v, iloc_last series = Ok v -> index (rev (last_n 5 series)) 0 = Ok v).
Proof.
  intros Hl. split; [| split; [| split]].
  - unfold df_reversed, df_tail. cbn [columns].
    apply (lookup_map_values (fun vs => rev vs)).
    apply (lookup_map_values (fun vs => last_n 5 vs)). exact Hl.
  - rewrite length_rev. apply last_n_length.
  - cbn [df_reversed df_tail index_len]. apply Nat.le_min_l.
  - intros v Hv. unfold iloc_last in Hv.
    destruct (rev series) as [| x rest] eqn:Hrev; [discriminate |].
    injection Hv as ->.
    destruct (rev_last_n_head 5 series v rest) as [rest' E]; [lia | exact Hrev |].
    rewrite E. reflexivity.
Qed.

Lemma displayed_frame_starts_with_latest_witness :
  lookup "NATR_30" (columns (df_reversed (df_tail 5
     {| index_len := 7;
        columns := [("NATR_30"%string, [0.001; 0.002; 0.003; 0.004; 0.005; 0.006; 0.007])] |})))
  = Ok [0.007; 0.006; 0.005; 0.004; 0.003].
Proof.
  destruct (displayed_frame_starts_with_latest
              {| index_len := 7;
                 columns := [("NATR_30"%string,
                              [0.001; 0.002; 0.003; 0.004; 0.005; 0.006; 0.007])] |}
              "NATR_30" [0.001; 0.002; 0.003; 0.004; 0.005; 0.006; 0.007]) as [H _].
  - reflexivity.
  - exact H.
Defined.

Lemma format_status_is_an_observer_witness :
  format_status sample_host
    {| ready_to_trade := false;
       balance_df_lines := balance_df_lines sample_status_host;
       active_orders_df := active_orders_df sample_status_host;
       candles_name := candles_name sample_status_host;
       candles_interval_name := candles_interval_name sample_status_host;
       frame_lines := frame_lines sample_status_host;
       format_float := format_float sample_status_host |}
    AdaptiveMarketMaker
  = (Ok "Market connectors are not ready."%string, AdaptiveMarketMaker, []).
Proof.
  destruct (format_status_is_an_observer sample_host
              {| ready_to_trade := false;
                 balance_df_lines := balance_df_lines sample_status_host;
                 active_orders_df := active_orders_df sample_status_host;
                 candles_name := candles_name sample_status_host;
                 candles_interval_name := candles_interval_name sample_status_host;
                 frame_lines := frame_lines sample_status_host;
                 format_float := format_float sample_status_host |}
              AdaptiveMarketMaker) as (_ & _ & Hnot).
  apply Hnot. reflexivity.
Defined.
